(** * EasyI2C: a register-oriented helper over MicroPython's [machine.I2C]

    Shallow embedding of [src/easy_i2c.py].  Python integers are [Z],
    [bytes] objects are lists of [Byte.byte], exceptions are values of
    [exn], and every method of the class is a computation in a small
    state-and-exception monad over a [world]: the state of the
    underlying driver, the record of the calls made to it, and the
    lines written by [print]. *)

From Stdlib Require Import ZArith List Bool Lia.
From Stdlib.Strings Require Import String Ascii Byte.
From Stdlib Require Import Hexadecimal HexadecimalPos.
From Stdlib Require HexadecimalString.
Import ListNotations.
Local Open Scope string_scope.
Local Open Scope list_scope.
Local Open Scope Z_scope.

(** ** Python values and exceptions *)

Definition bytes := list byte.

(** The objects a caller may hand to the [data] parameter. *)
#[warnings="-register-all"]
Inductive pyval : Type :=
| PyNone
| PyBool (b : bool)
| PyInt (z : Z)
| PyStr (s : string)
| PyBytes (bs : bytes)
| PyByteArray (bs : bytes)
| PyTuple (xs : list pyval)
| PyList (xs : list pyval).

Inductive exn : Type :=
| OSError (errno : Z)
| ValueError (msg : string)
| TypeError (msg : string)
| IndexError (msg : string).

(** ** Built-ins used by the class *)

Definition byte_of_Z (z : Z) : option byte := Byte.of_N (Z.to_N z).
Definition Z_of_byte (b : byte) : Z := Z.of_N (Byte.to_N b).

(** [mp_obj_get_int]: booleans count as integers, everything else that
    is not an [int] is a [TypeError] (whose text, which names the type
    of the item, is shortened here). *)
Definition get_int (v : pyval) : exn + Z :=
  match v with
  | PyInt z => inr z
  | PyBool b => inr (if b then 1 else 0)
  | _ => inl (TypeError "can't convert to int")
  end.

(** [bytes(iterable)]: every item is converted with [get_int] and must
    lie in [range(256)]. *)
Fixpoint bytes_of_items (xs : list pyval) : exn + bytes :=
  match xs with
  | [] => inr []
  | x :: rest =>
      match get_int x with
      | inl e => inl e
      | inr z =>
          if (z <? 0) || (255 <? z) then inl (ValueError "bytes value out of range")
          else match byte_of_Z z with
               | None => inl (ValueError "bytes value out of range")
               | Some b =>
                   match bytes_of_items rest with
                   | inl e => inl e
                   | inr bs => inr (b :: bs)
                   end
               end
      end
  end.

(** Upper-case hexadecimal digits of a number, most significant first. *)
Fixpoint upper_hex (u : Hexadecimal.uint) : string :=
  match u with
  | Nil => ""
  | D0 u => String "0" (upper_hex u)
  | D1 u => String "1" (upper_hex u)
  | D2 u => String "2" (upper_hex u)
  | D3 u => String "3" (upper_hex u)
  | D4 u => String "4" (upper_hex u)
  | D5 u => String "5" (upper_hex u)
  | D6 u => String "6" (upper_hex u)
  | D7 u => String "7" (upper_hex u)
  | D8 u => String "8" (upper_hex u)
  | D9 u => String "9" (upper_hex u)
  | Da u => String "A" (upper_hex u)
  | Db u => String "B" (upper_hex u)
  | Dc u => String "C" (upper_hex u)
  | Dd u => String "D" (upper_hex u)
  | De u => String "E" (upper_hex u)
  | Df u => String "F" (upper_hex u)
  end.

(** The format specification [:02X] of the f-strings: upper-case
    hexadecimal, zero-padded to two characters, the sign counted in the
    width. *)
Definition format_02X (z : Z) : string :=
  match z with
  | Z0 => "00"
  | Zpos p =>
      let s := upper_hex (Pos.to_hex_uint p) in
      if (String.length s <? 2)%nat then String "0" s else s
  | Zneg p => String "-" (upper_hex (Pos.to_hex_uint p))
  end.

(** ** The underlying driver, [machine.I2C]

    The peripheral driver is not part of the repository: it is a
    parameter, any state type with the five primitives the class calls.
    A primitive may raise any exception; [OSError] is the one the bus
    reports on a failed transfer. *)

Module I2C.
Record driver (S : Type) : Type := {
  scan : S -> (exn + list Z) * S;
  writeto_mem : Z -> Z -> bytes -> S -> (exn + unit) * S;
  readfrom_mem : Z -> Z -> Z -> S -> (exn + bytes) * S;
  writeto : Z -> bytes -> S -> (exn + unit) * S;
  readfrom : Z -> Z -> S -> (exn + bytes) * S
}.
Arguments scan {S}.
Arguments writeto_mem {S}.
Arguments readfrom_mem {S}.
Arguments writeto {S}.
Arguments readfrom {S}.
End I2C.

(** One call of a driver primitive, with its arguments. *)
Inductive call : Type :=
| Scan
| WritetoMem (addr memaddr : Z) (buf : bytes)
| ReadfromMem (addr memaddr nbytes : Z)
| Writeto (addr : Z) (buf : bytes)
| Readfrom (addr nbytes : Z).

(** What the driver answered: it returned, or it raised. *)
Definition outcome : Type := option exn.

Definition raised {A : Type} (r : exn + A) : outcome :=
  match r with inl e => Some e | inr _ => None end.

(** ** The class *)

Section EasyI2C.

Variable S : Type.
Variable i2c : I2C.driver S.

Record world : Type := World {
  bus : S;
  calls : list (call * outcome);
  stdout : list string
}.

Definition M (A : Type) : Type := world -> (exn + A) * world.

Definition ret {A : Type} (a : A) : M A := fun w => (inr a, w).

Definition raise {A : Type} (e : exn) : M A := fun w => (inl e, w).

Definition bind {A B : Type} (m : M A) (k : A -> M B) : M B :=
  fun w =>
    match m w with
    | (inl e, w') => (inl e, w')
    | (inr a, w') => k a w'
    end.

Notation "x <- m ;; k" := (bind m (fun x => k))
  (at level 61, m at next level, right associativity).
Notation "m ;; k" := (bind m (fun _ => k))
  (at level 61, right associativity).

Definition lift {A : Type} (r : exn + A) : M A := fun w => (r, w).

Definition print (line : string) : M unit :=
  fun w => (inr tt, World (bus w) (calls w) (stdout w ++ [line])).

(** [try: body / except OSError as e: handler e]; any other exception
    leaves the [try] statement untouched. *)
Definition try_except_OSError {A : Type} (body : M A) (handler : Z -> M A) : M A :=
  fun w =>
    match body w with
    | (inl (OSError errno), w') => handler errno w'
    | r => r
    end.

(** A driver primitive run on the bus; the call and its outcome are
    recorded. *)
Definition invoke {A : Type} (c : call) (prim : S -> (exn + A) * S) : M A :=
  fun w =>
    let '(r, s') := prim (bus w) in
    (r, World s' (calls w ++ [(c, raised r)]) (stdout w)).

Definition i2c_scan : M (list Z) :=
  invoke Scan (I2C.scan i2c).
Definition i2c_writeto_mem (addr memaddr : Z) (buf : bytes) : M unit :=
  invoke (WritetoMem addr memaddr buf) (I2C.writeto_mem i2c addr memaddr buf).
Definition i2c_readfrom_mem (addr memaddr nbytes : Z) : M bytes :=
  invoke (ReadfromMem addr memaddr nbytes) (I2C.readfrom_mem i2c addr memaddr nbytes).
Definition i2c_writeto (addr : Z) (buf : bytes) : M unit :=
  invoke (Writeto addr buf) (I2C.writeto i2c addr buf).
Definition i2c_readfrom (addr nbytes : Z) : M bytes :=
  invoke (Readfrom addr nbytes) (I2C.readfrom i2c addr nbytes).

(** [data[i]] on a [bytes] object. *)
Definition getitem (data : bytes) (i : nat) : M Z :=
  match nth_error data i with
  | Some b => ret (Z_of_byte b)
  | None => raise (IndexError "bytes index out of range")
  end.

(** The messages of the three [ValueError]s the class raises. *)
Definition addr_msg : string := "Адрес устройства должен быть в диапазоне 0-127".
Definition byte_msg : string := "Значение должно быть в диапазоне 0-255".
Definition word_msg : string := "Значение должно быть в диапазоне 0-65535".
Definition data_msg : string := "data должен быть bytes или list".

Definition InvalidAddress : exn := ValueError addr_msg.
Definition InvalidData : exn := ValueError data_msg.

Fixpoint print_devices (devices : list Z) : M unit :=
  match devices with
  | [] => ret tt
  | addr :: rest =>
      print (" - Адрес: 0x" ++ format_02X addr)%string ;;
      print_devices rest
  end.

Definition scan (verbose : bool) : M (list Z) :=
  devices <- i2c_scan ;;
  (if verbose then
     match devices with
     | _ :: _ =>
         print "Обнаружены устройства I2C:" ;;
         print_devices devices
     | [] => print "Устройства не найдены."
     end
   else ret tt) ;;
  ret devices.

Definition _check_addr (device_addr : Z) : M unit :=
  if negb ((0 <=? device_addr) && (device_addr <=? 127))
  then raise InvalidAddress
  else ret tt.

(** The text of a diagnostic: [what] names the failed transfer. *)
Definition mem_diagnostic (what : string) (device_addr reg_addr : Z) : string :=
  ("Ошибка: Не удалось " ++ what ++ " 0x" ++ format_02X device_addr
     ++ ", регистр 0x" ++ format_02X reg_addr)%string.

Definition direct_diagnostic (what : string) (device_addr : Z) : string :=
  ("Ошибка: Не удалось " ++ what ++ " 0x" ++ format_02X device_addr)%string.

Definition write_byte (device_addr reg_addr value : Z) : M unit :=
  _check_addr device_addr ;;
  (if negb ((0 <=? value) && (value <=? 255))
   then raise (ValueError byte_msg)
   else ret tt) ;;
  try_except_OSError
    (buf <- lift (bytes_of_items [PyInt value]) ;;
     i2c_writeto_mem device_addr reg_addr buf)
    (fun errno =>
       print (mem_diagnostic "записать байт в устройство" device_addr reg_addr) ;;
       raise (OSError errno)).

Definition read_byte (device_addr reg_addr : Z) : M Z :=
  _check_addr device_addr ;;
  try_except_OSError
    (data <- i2c_readfrom_mem device_addr reg_addr 1 ;;
     getitem data 0)
    (fun errno =>
       print (mem_diagnostic "прочитать байт из устройства" device_addr reg_addr) ;;
       raise (OSError errno)).

(** Lines 88-91: the two integers a word is split into. *)
Definition pack_word (byteorder : string) (value : Z) : list pyval :=
  if String.eqb byteorder "big"
  then [PyInt (Z.land (Z.shiftr value 8) 255); PyInt (Z.land value 255)]
  else [PyInt (Z.land value 255); PyInt (Z.land (Z.shiftr value 8) 255)].

Definition write_word (device_addr reg_addr value : Z) (byteorder : string) : M unit :=
  _check_addr device_addr ;;
  (if negb ((0 <=? value) && (value <=? 65535))
   then raise (ValueError word_msg)
   else ret tt) ;;
  let data := pack_word byteorder value in
  try_except_OSError
    (buf <- lift (bytes_of_items data) ;;
     i2c_writeto_mem device_addr reg_addr buf)
    (fun errno =>
       print (mem_diagnostic "записать слово в устройство" device_addr reg_addr) ;;
       raise (OSError errno)).

(** Lines 110-113: the word two received bytes stand for. *)
Definition unpack_word (byteorder : string) (data : bytes) : M Z :=
  if String.eqb byteorder "big"
  then d0 <- getitem data 0 ;; d1 <- getitem data 1 ;;
       ret (Z.lor (Z.shiftl d0 8) d1)
  else d1 <- getitem data 1 ;; d0 <- getitem data 0 ;;
       ret (Z.lor (Z.shiftl d1 8) d0).

Definition read_word (device_addr reg_addr : Z) (byteorder : string) : M Z :=
  _check_addr device_addr ;;
  try_except_OSError
    (data <- i2c_readfrom_mem device_addr reg_addr 2 ;;
     unpack_word byteorder data)
    (fun errno =>
       print (mem_diagnostic "прочитать слово из устройства" device_addr reg_addr) ;;
       raise (OSError errno)).

(** The [isinstance] chain of [write_bytes] and [write_direct]: a
    list goes through [bytes(...)], a [bytes] object is kept, anything
    else is refused. *)
Definition coerce_data (data : pyval) : M bytes :=
  match data with
  | PyList xs => lift (bytes_of_items xs)
  | PyBytes bs => ret bs
  | _ => raise InvalidData
  end.

Definition write_bytes (device_addr reg_addr : Z) (data : pyval) : M unit :=
  _check_addr device_addr ;;
  buf <- coerce_data data ;;
  try_except_OSError
    (i2c_writeto_mem device_addr reg_addr buf)
    (fun errno =>
       print (mem_diagnostic "записать байты в устройство" device_addr reg_addr) ;;
       raise (OSError errno)).

Definition read_bytes (device_addr reg_addr nbytes : Z) : M bytes :=
  _check_addr device_addr ;;
  try_except_OSError
    (i2c_readfrom_mem device_addr reg_addr nbytes)
    (fun errno =>
       print (mem_diagnostic "прочитать байты из устройства" device_addr reg_addr) ;;
       raise (OSError errno)).

Definition write_direct (device_addr : Z) (data : pyval) : M unit :=
  _check_addr device_addr ;;
  buf <- coerce_data data ;;
  try_except_OSError
    (i2c_writeto device_addr buf)
    (fun errno =>
       print (direct_diagnostic "записать данные на устройство" device_addr) ;;
       raise (OSError errno)).

Definition read_direct (device_addr nbytes : Z) : M bytes :=
  _check_addr device_addr ;;
  try_except_OSError
    (i2c_readfrom device_addr nbytes)
    (fun errno =>
       print (direct_diagnostic "прочитать данные с устройства" device_addr) ;;
       raise (OSError errno)).

(** ** Method calls as data

    The eight public methods that take a device address, so that a
    statement can range over all of them.  [perform] runs the method
    and wraps what it returns as a Python value. *)
Inductive method : Type :=
| WriteByte (reg_addr value : Z)
| ReadByte (reg_addr : Z)
| WriteWord (reg_addr value : Z) (byteorder : string)
| ReadWord (reg_addr : Z) (byteorder : string)
| WriteBytes (reg_addr : Z) (data : pyval)
| ReadBytes (reg_addr nbytes : Z)
| WriteDirect (data : pyval)
| ReadDirect (nbytes : Z).

Definition fmap {A B : Type} (f : A -> B) (m : M A) : M B :=
  a <- m ;; ret (f a).

Definition perform (device_addr : Z) (op : method) : M pyval :=
  match op with
  | WriteByte reg_addr value =>
      fmap (fun _ => PyNone) (write_byte device_addr reg_addr value)
  | ReadByte reg_addr =>
      fmap PyInt (read_byte device_addr reg_addr)
  | WriteWord reg_addr value byteorder =>
      fmap (fun _ => PyNone) (write_word device_addr reg_addr value byteorder)
  | ReadWord reg_addr byteorder =>
      fmap PyInt (read_word device_addr reg_addr byteorder)
  | WriteBytes reg_addr data =>
      fmap (fun _ => PyNone) (write_bytes device_addr reg_addr data)
  | ReadBytes reg_addr nbytes =>
      fmap PyBytes (read_bytes device_addr reg_addr nbytes)
  | WriteDirect data =>
      fmap (fun _ => PyNone) (write_direct device_addr data)
  | ReadDirect nbytes =>
      fmap PyBytes (read_direct device_addr nbytes)
  end.

End EasyI2C.

Arguments World {S}.
Arguments bus {S}.
Arguments calls {S}.
Arguments stdout {S}.
Arguments ret {S A}.
Arguments raise {S A}.
Arguments bind {S A B}.
Arguments lift {S A}.
Arguments fmap {S A B}.
Arguments print {S}.
Arguments try_except_OSError {S A}.
Arguments invoke {S A}.
Arguments getitem {S}.
Arguments print_devices {S}.
Arguments _check_addr {S}.
Arguments unpack_word {S}.
Arguments coerce_data {S}.
Arguments scan {S}.
Arguments write_byte {S}.
Arguments read_byte {S}.
Arguments write_word {S}.
Arguments read_word {S}.
Arguments write_bytes {S}.
Arguments read_bytes {S}.
Arguments write_direct {S}.
Arguments read_direct {S}.
Arguments perform {S}.

Arguments format_02X : simpl never.
Arguments mem_diagnostic : simpl never.
Arguments direct_diagnostic : simpl never.

(** ** Notions used in the statements *)

(** What a guarded transfer leaves on [stdout]: the diagnostic when the
    driver raised [OSError], nothing otherwise. *)
Definition diagnosed (line : string) (o : outcome) : list string :=
  match o with
  | Some (OSError _) => [line]
  | _ => []
  end.

(** A continuation that only computes: it leaves the world alone and
    never raises [OSError]. *)
Definition computes {S A B : Type} (post : A -> M S B) : Prop :=
  forall a, exists r,
    (forall w, post a w = (r, w)) /\ (forall errno, r <> inl (OSError errno)).

(** The items [bytes(...)] takes for integers. *)
Definition is_int (v : pyval) : bool :=
  match v with
  | PyInt _ | PyBool _ => true
  | _ => false
  end.

(** The two ways a method call can go.  Either validation refuses the
    input and nothing at all happens, or the driver is called exactly
    once and whatever it raises is what the caller gets. *)
Definition refused {S : Type} (i2c : I2C.driver S)
    (device_addr : Z) (op : method) (w : world S) : Prop :=
  exists e,
    perform i2c device_addr op w = (inl e, w)
    /\ (forall errno, e <> OSError errno)
    /\ (0 <= device_addr <= 127 -> e <> InvalidAddress).

Definition transferred {S : Type} (i2c : I2C.driver S)
    (device_addr : Z) (op : method) (w : world S) : Prop :=
  exists r c o s' line,
    perform i2c device_addr op w =
      (r, World s' (calls w ++ [(c, o)]) (stdout w ++ diagnosed line o))
    /\ (forall e, o = Some e -> r = inl e).

(** A driver behaves as a register file when a register read that
    follows a successful register write to the same place, for as many
    bytes as were written, gives those bytes back. *)
Definition register_file {S : Type} (i2c : I2C.driver S) : Prop :=
  forall addr memaddr buf s s',
    I2C.writeto_mem i2c addr memaddr buf s = (inr tt, s') ->
    I2C.readfrom_mem i2c addr memaddr (Z.of_nat (List.length buf)) s' = (inr buf, s').

(** Reading a number back from hexadecimal text, as [int(text, 16)]
    does for digits in upper case. *)
Fixpoint position (c : ascii) (alphabet : string) (i : Z) : option Z :=
  match alphabet with
  | EmptyString => None
  | String d rest => if Ascii.eqb c d then Some i else position c rest (i + 1)
  end.

Definition hex_digit_value (c : ascii) : option Z :=
  position c "0123456789ABCDEF" 0.

Fixpoint parse_hex_digits (acc : Z) (s : string) : option Z :=
  match s with
  | EmptyString => Some acc
  | String c rest =>
      match hex_digit_value c with
      | Some d => parse_hex_digits (16 * acc + d) rest
      | None => None
      end
  end.

Definition parse_hex (s : string) : option Z :=
  match s with
  | EmptyString => None
  | String "-" EmptyString => None
  | String "-" rest => option_map Z.opp (parse_hex_digits 0 rest)
  | _ => parse_hex_digits 0 s
  end.

(** ** A driver double

    A bus with a set of attached devices, each a small register file
    that gives back what was last written.  A transfer to an absent
    device fails with [ENODEV]; while [fault] is set, every primitive
    fails with that error number. *)
Module Double.

Record state : Type := {
  devices : list Z;
  regs : list ((Z * Z) * bytes);
  direct : list (Z * bytes);
  fault : option Z
}.

Definition ENODEV : Z := 19.

Definition attached (st : state) (addr : Z) : bool :=
  existsb (Z.eqb addr) (devices st).

Fixpoint lookup_reg (addr memaddr : Z) (m : list ((Z * Z) * bytes)) : bytes :=
  match m with
  | [] => []
  | ((a, r), buf) :: rest =>
      if (a =? addr) && (r =? memaddr) then buf else lookup_reg addr memaddr rest
  end.

Fixpoint lookup_direct (addr : Z) (m : list (Z * bytes)) : bytes :=
  match m with
  | [] => []
  | (a, buf) :: rest => if a =? addr then buf else lookup_direct addr rest
  end.

(** Exactly [n] bytes: the stored ones first, then zeroes. *)
Fixpoint take_padded (n : nat) (buf : bytes) : bytes :=
  match n with
  | O => []
  | Datatypes.S n' =>
      match buf with
      | [] => x00 :: take_padded n' []
      | b :: rest => b :: take_padded n' rest
      end
  end.

Definition guarded {A : Type} (st : state) (addr : Z)
    (k : (exn + A) * state) : (exn + A) * state :=
  match fault st with
  | Some errno => (inl (OSError errno), st)
  | None => if attached st addr then k else (inl (OSError ENODEV), st)
  end.

Definition scan (st : state) : (exn + list Z) * state :=
  match fault st with
  | Some errno => (inl (OSError errno), st)
  | None => (inr (devices st), st)
  end.

Definition writeto_mem (addr memaddr : Z) (buf : bytes) (st : state) :=
  guarded st addr
    (inr tt, {| devices := devices st;
                regs := ((addr, memaddr), buf) :: regs st;
                direct := direct st;
                fault := fault st |}).

Definition readfrom_mem (addr memaddr nbytes : Z) (st : state) :=
  guarded st addr
    (inr (take_padded (Z.to_nat nbytes) (lookup_reg addr memaddr (regs st))), st).

Definition writeto (addr : Z) (buf : bytes) (st : state) :=
  guarded st addr
    (inr tt, {| devices := devices st;
                regs := regs st;
                direct := (addr, buf) :: direct st;
                fault := fault st |}).

Definition readfrom (addr nbytes : Z) (st : state) :=
  guarded st addr
    (inr (take_padded (Z.to_nat nbytes) (lookup_direct addr (direct st))), st).

Definition i2c : I2C.driver state :=
  {| I2C.scan := scan;
     I2C.writeto_mem := writeto_mem;
     I2C.readfrom_mem := readfrom_mem;
     I2C.writeto := writeto;
     I2C.readfrom := readfrom |}.

(** Devices at 0x3C and 0x40, nothing written yet. *)
Definition two_devices : state :=
  {| devices := [60; 64]; regs := []; direct := []; fault := None |}.

(** The same bus with an I/O fault ([EIO]) on every primitive. *)
Definition faulty : state :=
  {| devices := [60; 64]; regs := []; direct := []; fault := Some 5 |}.

Definition fresh (st : state) : world state :=
  World st [] [].

End Double.

(** ** A driver that answers short

    A bus on which every transfer succeeds, but a read gives back no
    byte at all, however many were asked for. *)
Module Mute.

Definition i2c : I2C.driver unit :=
  {| I2C.scan := fun s => (inr [], s);
     I2C.writeto_mem := fun _ _ _ s => (inr tt, s);
     I2C.readfrom_mem := fun _ _ _ s => (inr [], s);
     I2C.writeto := fun _ _ s => (inr tt, s);
     I2C.readfrom := fun _ _ s => (inr [], s) |}.

Definition fresh : world unit := World tt [] [].

End Mute.

(** ** A driver that checks its arguments

    A bus whose register transfers refuse, with a [ValueError] of their
    own, a register address outside 0..255, and succeed otherwise. *)
Module Picky.

Definition memaddr_ok (memaddr : Z) : bool :=
  (0 <=? memaddr) && (memaddr <=? 255).

Definition i2c : I2C.driver unit :=
  {| I2C.scan := fun s => (inr [], s);
     I2C.writeto_mem := fun _ memaddr _ s =>
       if memaddr_ok memaddr then (inr tt, s)
       else (inl (ValueError "memaddr out of range"), s);
     I2C.readfrom_mem := fun _ memaddr _ s =>
       if memaddr_ok memaddr then (inr [x00; x00], s)
       else (inl (ValueError "memaddr out of range"), s);
     I2C.writeto := fun _ _ s => (inr tt, s);
     I2C.readfrom := fun _ _ s => (inr [], s) |}.

Definition fresh : world unit := World tt [] [].

End Picky.

(** ** The constructor *)

(** What [__init__] may be given for a pin: a [machine.Pin] object,
    known by its number, or some other object. *)
Inductive pin_arg : Type :=
| Pin (id : Z)
| NotPin (v : pyval).

Definition is_Pin (p : pin_arg) : bool :=
  match p with
  | Pin _ => true
  | NotPin _ => false
  end.

Definition pin_msg : string := "scl и sda должны быть объектами machine.Pin".

Section Constructor.

(** The platform: its state, and [machine.I2C(scl=, sda=, freq=)],
    which configures the peripheral and gives the bus, or raises. *)
Variable H S : Type.
Variable machine_I2C : pin_arg -> pin_arg -> Z -> H -> (exn + S) * H.

(** [freq] is [None] when the caller leaves it out. *)
Definition __init__ (scl sda : pin_arg) (freq : option Z) (h : H) : (exn + S) * H :=
  let freq := match freq with Some f => f | None => 100000 end in
  if negb (is_Pin scl) || negb (is_Pin sda)
  then (inl (ValueError pin_msg), h)
  else machine_I2C scl sda freq h.

End Constructor.

Arguments __init__ {H S}.

(** ** The usage example, [example.py]

    The script from its line 7 on, run on the bus its line 5 has
    constructed. *)

(** [hex(n)]. *)
Definition py_hex (z : Z) : string :=
  match z with
  | Z0 => "0x0"
  | Zpos p => ("0x" ++ HexadecimalString.NilEmpty.string_of_uint (Pos.to_hex_uint p))%string
  | Zneg p => ("-0x" ++ HexadecimalString.NilEmpty.string_of_uint (Pos.to_hex_uint p))%string
  end.

(** [str] of a list of strings, as an f-string prints it. *)
Definition str_of_str_list (xs : list string) : string :=
  ("[" ++ String.concat ", " (map (fun s => "'" ++ s ++ "'") xs) ++ "]")%string.

Fixpoint zeros (n : nat) (s : string) : string :=
  match n with
  | O => s
  | Datatypes.S n' => String "0" (zeros n' s)
  end.

(** The format specification [:04X]. *)
Definition format_04X (z : Z) : string :=
  match z with
  | Z0 => "0000"
  | Zpos p =>
      let s := upper_hex (Pos.to_hex_uint p) in
      zeros (4 - String.length s) s
  | Zneg p =>
      let s := upper_hex (Pos.to_hex_uint p) in
      String "-" (zeros (3 - String.length s) s)
  end.

(** How the script ends: it runs to its last line, it stops at
    [exit()], or an exception goes uncaught. *)
Inductive script_end : Type :=
| Completed
| Exited
| Uncaught (e : exn).

Section Example.

Variable S : Type.
Variable i2c : I2C.driver S.

(** [str(e)] of an [OSError], the platform's text for its error
    number. *)
Variable str_OSError : Z -> string.

Local Notation "x <- m ;; k" := (bind m (fun x => k))
  (at level 61, m at next level, right associativity).
Local Notation "m ;; k" := (bind m (fun _ => k))
  (at level 61, right associativity).

(** Lines 7-17: the device the script goes on with, if any. *)
Definition select_device : M S (option Z) :=
  print "Результаты сканирования I2С:" ;;
  devices <- scan i2c true ;;
  match devices with
  | device_addr :: _ =>
      print ("Выбрано устройство с адресом 0x" ++ format_02X device_addr)%string ;;
      ret (Some device_addr)
  | [] =>
      print "Ошибка: Подключенные устройства не найдены!" ;;
      ret None
  end.

(** Lines 19-73: one guarded block per method. *)
Definition exercise (device_addr : Z) : M S unit :=
  try_except_OSError
    (write_byte i2c device_addr 1 255 ;;
     print "В регистр 0x01 записан байт 0xFF")
    (fun errno => print ("Ошибка записи байта: " ++ str_OSError errno)%string) ;;
  try_except_OSError
    (value <- read_byte i2c device_addr 1 ;;
     print ("Байт, прочитанный из регистра 0x01: 0x" ++ format_02X value)%string)
    (fun errno => print ("Ошибка чтения байта: " ++ str_OSError errno)%string) ;;
  try_except_OSError
    (write_word i2c device_addr 2 4660 "big" ;;
     print "В регистр 0x02 записано слово 0x1234 (big-endian)")
    (fun errno => print ("Ошибка записи слова: " ++ str_OSError errno)%string) ;;
  try_except_OSError
    (word <- read_word i2c device_addr 2 "big" ;;
     print ("Слово, прочитанное из регистра 0x02: 0x" ++ format_04X word)%string)
    (fun errno => print ("Ошибка чтения слова: " ++ str_OSError errno)%string) ;;
  try_except_OSError
    (write_bytes i2c device_addr 3 (PyList [PyInt 1; PyInt 2; PyInt 3]) ;;
     print "В регистр 0x03 записаны байты: [0x01, 0x02, 0x03]")
    (fun errno => print ("Ошибка записи байтов: " ++ str_OSError errno)%string) ;;
  try_except_OSError
    (bytes_data <- read_bytes i2c device_addr 3 3 ;;
     print ("Байты, прочитанные из регистра 0x03: "
            ++ str_of_str_list (map (fun b => py_hex (Z_of_byte b)) bytes_data))%string)
    (fun errno => print ("Ошибка чтения байтов: " ++ str_OSError errno)%string) ;;
  try_except_OSError
    (write_direct i2c device_addr (PyList [PyInt 170; PyInt 187]) ;;
     print "На устройство напрямую записаны байты: [0xAA, 0xBB]")
    (fun errno => print ("Ошибка прямой записи: " ++ str_OSError errno)%string) ;;
  try_except_OSError
    (direct_data <- read_direct i2c device_addr 2 ;;
     print ("Байты, прочитанные напрямую с устройства: "
            ++ str_of_str_list (map (fun b => py_hex (Z_of_byte b)) direct_data))%string)
    (fun errno => print ("Ошибка прямого чтения: " ++ str_OSError errno)%string).

Definition example (w : world S) : script_end * world S :=
  match select_device w with
  | (inl e, w1) => (Uncaught e, w1)
  | (inr None, w1) => (Exited, w1)
  | (inr (Some device_addr), w1) =>
      match exercise device_addr w1 with
      | (inl e, w2) => (Uncaught e, w2)
      | (inr _, w2) => (Completed, w2)
      end
  end.

End Example.

Arguments select_device {S}.
Arguments exercise {S}.
Arguments example {S}.

(** ** Notions used in the statements about the script *)

(** A result that is a return or an [OSError]. *)
Definition returns_or_OSError {A : Type} (r : exn + A) : Prop :=
  match r with
  | inl e => exists errno, e = OSError errno
  | inr _ => True
  end.

(** A driver is well behaved when its transfers raise nothing but
    [OSError] and its reads, when they return, return as many bytes as
    they were asked for. *)
Record well_behaved {S : Type} (i2c : I2C.driver S) : Prop := {
  wb_writeto_mem : forall addr memaddr buf s,
    returns_or_OSError (fst (I2C.writeto_mem i2c addr memaddr buf s));
  wb_writeto : forall addr buf s,
    returns_or_OSError (fst (I2C.writeto i2c addr buf s));
  wb_readfrom_mem : forall addr memaddr nbytes s,
    match fst (I2C.readfrom_mem i2c addr memaddr nbytes s) with
    | inl e => exists errno, e = OSError errno
    | inr data => List.length data = Z.to_nat nbytes
    end;
  wb_readfrom : forall addr nbytes s,
    match fst (I2C.readfrom i2c addr nbytes s) with
    | inl e => exists errno, e = OSError errno
    | inr data => List.length data = Z.to_nat nbytes
    end
}.

(** A computation that never lets an [OSError] out. *)
Definition contains_OSError {S A : Type} (m : M S A) : Prop :=
  forall w errno, fst (m w) <> inl (OSError errno).

(** A computation that makes exactly one driver call, [c], prints what
    it prints, and ends in a return or an [OSError]. *)
Definition transfers {S A : Type} (c : call) (m : M S A) : Prop :=
  forall w, exists r o s' out,
    m w = (r, World s' (calls w ++ [(c, o)]) (stdout w ++ out))
    /\ returns_or_OSError r.

(** A computation that returns after making exactly the driver calls
    [cs], in that order. *)
Definition runs {S : Type} (cs : list call) (m : M S unit) : Prop :=
  forall w, exists os s' out,
    List.length os = List.length cs
    /\ m w = (inr tt, World s' (calls w ++ combine cs os) (stdout w ++ out)).

(** * Properties *)



(** ** Basic facts about the built-ins *)

Lemma byte_of_Z_in_range (z : Z) :
  0 <= z <= 255 -> exists b, byte_of_Z z = Some b /\ Z_of_byte b = z.
Proof.
  intros Hz. unfold byte_of_Z, Z_of_byte.
  destruct (Byte.of_N (Z.to_N z)) as [b|] eqn:E.
  - exists b. split; [reflexivity|].
    apply Byte.to_of_N in E. rewrite E. apply Z2N.id. lia.
  - apply Byte.of_N_None_iff in E. lia.
Qed.

Lemma Z_of_byte_range (b : byte) : 0 <= Z_of_byte b <= 255.
Proof.
  unfold Z_of_byte. pose proof (Byte.to_N_bounded b). lia.
Qed.

Lemma Z_of_byte_inj (a b : byte) : Z_of_byte a = Z_of_byte b -> a = b.
Proof.
  unfold Z_of_byte. intros H. apply N2Z.inj in H.
  pose proof (Byte.of_to_N a) as Ha. rewrite H, Byte.of_to_N in Ha. congruence.
Qed.

Lemma bytes_of_items_error (xs : list pyval) (e : exn) :
  bytes_of_items xs = inl e ->
  e = ValueError "bytes value out of range" \/ e = TypeError "can't convert to int".
Proof.
  induction xs as [|x rest IH]; simpl; [discriminate|].
  destruct x; simpl; try (intros [= <-]; now right).
  - destruct ((_ <? 0) || (255 <? _)); [intros [= <-]; now left|].
    destruct (byte_of_Z _); [|intros [= <-]; now left].
    destruct (bytes_of_items rest); [|discriminate].
    intros [= <-]. now apply IH.
  - destruct ((z <? 0) || (255 <? z)); [intros [= <-]; now left|].
    destruct (byte_of_Z z); [|intros [= <-]; now left].
    destruct (bytes_of_items rest); [|discriminate].
    intros [= <-]. now apply IH.
Qed.

Lemma bytes_of_items_ints (zs : list Z) :
  Forall (fun z => 0 <= z <= 255) zs ->
  exists buf, bytes_of_items (map PyInt zs) = inr buf /\ map Z_of_byte buf = zs.
Proof.
  induction 1 as [|z zs Hz _ [buf [IH1 IH2]]]; simpl.
  - exists []. now split.
  - destruct (byte_of_Z_in_range z Hz) as [b [Hb1 Hb2]].
    replace ((z <? 0) || (255 <? z)) with false
      by (symmetry; apply orb_false_iff; split; apply Z.ltb_ge; lia).
    rewrite Hb1, IH1. exists (b :: buf). simpl. now rewrite Hb2, IH2.
Qed.

(** ** The monad's primitives *)

Section Primitives.

Variable S : Type.
Implicit Type w : world S.

Lemma check_addr_accepts (device_addr : Z) w :
  0 <= device_addr <= 127 -> _check_addr device_addr w = (inr tt, w).
Proof.
  intros H. unfold _check_addr.
  replace ((0 <=? device_addr) && (device_addr <=? 127)) with true; [reflexivity|].
  symmetry. apply andb_true_iff. split; apply Z.leb_le; lia.
Qed.

Lemma check_addr_rejects (device_addr : Z) w :
  device_addr < 0 \/ 127 < device_addr ->
  _check_addr device_addr w = (inl InvalidAddress, w).
Proof.
  intros H. unfold _check_addr.
  replace ((0 <=? device_addr) && (device_addr <=? 127)) with false; [reflexivity|].
  symmetry. apply andb_false_iff.
  destruct H; [left|right]; apply Z.leb_gt; lia.
Qed.

Lemma transfer_spec {A : Type} (c : call) (prim : S -> (exn + A) * S)
    (line : string) w (r : exn + A) (s' : S) :
  prim (bus w) = (r, s') ->
  try_except_OSError (invoke c prim) (fun errno => bind (print line) (fun _ => raise (OSError errno))) w =
  (r, World s' (calls w ++ [(c, raised r)]) (stdout w ++ diagnosed line (raised r))).
Proof.
  intros H. unfold try_except_OSError, invoke. rewrite H.
  destruct r as [[errno|msg|msg|msg]|a]; simpl;
    rewrite ?app_nil_r; reflexivity.
Qed.

Lemma transfer_then_spec {A B : Type} (c : call) (prim : S -> (exn + A) * S)
    (post : A -> M S B) (line : string) w (r : exn + A) (s' : S) :
  computes post ->
  prim (bus w) = (r, s') ->
  exists r' : exn + B,
    try_except_OSError (bind (invoke c prim) post) (fun errno => bind (print line) (fun _ => raise (OSError errno))) w =
    (r', World s' (calls w ++ [(c, raised r)]) (stdout w ++ diagnosed line (raised r)))
    /\ match r with
       | inl e => r' = inl e
       | inr a => forall w1, post a w1 = (r', w1)
       end.
Proof.
  intros Hpost H. unfold try_except_OSError, bind, invoke. rewrite H.
  destruct r as [[errno|msg|msg|msg]|a]; simpl;
    rewrite ?app_nil_r; try (eexists; split; reflexivity).
  destruct (Hpost a) as [r' [Hr' Hne]]. rewrite Hr'.
  exists r'. split; [|assumption].
  destruct r' as [[errno|msg|msg|msg]|b]; try reflexivity.
  now elim (Hne errno).
Qed.

Lemma getitem_computes (data : bytes) (i : nat) :
  exists r, (forall w, @getitem S data i w = (r, w))
            /\ (forall errno, r <> inl (OSError errno)).
Proof.
  unfold getitem. destruct (nth_error data i) as [b|].
  - exists (inr (Z_of_byte b)). split; [reflexivity|discriminate].
  - exists (inl (IndexError "bytes index out of range")).
    split; [reflexivity|discriminate].
Qed.

Lemma unpack_word_computes (byteorder : string) :
  computes (@unpack_word S byteorder).
Proof.
  intros data. unfold unpack_word, bind.
  destruct (getitem_computes data 0) as [r0 [H0 N0]].
  destruct (getitem_computes data 1) as [r1 [H1 N1]].
  destruct (String.eqb byteorder "big").
  - destruct r0 as [e0|d0].
    + exists (inl e0). split; [|intros errno; apply N0].
      intros w. now rewrite H0.
    + destruct r1 as [e1|d1].
      * exists (inl e1). split; [|intros errno; apply N1].
        intros w. now rewrite H0, H1.
      * exists (inr (Z.lor (Z.shiftl d0 8) d1)). split; [|discriminate].
        intros w. now rewrite H0, H1.
  - destruct r1 as [e1|d1].
    + exists (inl e1). split; [|intros errno; apply N1].
      intros w. now rewrite H1.
    + destruct r0 as [e0|d0].
      * exists (inl e0). split; [|intros errno; apply N0].
        intros w. now rewrite H1, H0.
      * exists (inr (Z.lor (Z.shiftl d1 8) d0)). split; [|discriminate].
        intros w. now rewrite H1, H0.
Qed.

Lemma snoc_differs {A : Type} (l : list A) (x : A) : l ++ [x] <> l.
Proof.
  intros H. apply (f_equal (@List.length A)) in H.
  rewrite length_app in H. simpl in H. lia.
Qed.

End Primitives.


(** ** Word packing *)

Lemma land_255_range (z : Z) : 0 <= Z.land z 255 <= 255.
Proof.
  assert (E : Z.land z 255 = z mod 256)
    by (change 255 with (Z.ones 8); rewrite Z.land_ones by lia; reflexivity).
  assert (H : 0 <= z mod 256 < 256) by (apply Z.mod_pos_bound; lia).
  lia.
Qed.

Lemma pack_word_bytes (byteorder : string) (value : Z) :
  exists hi lo,
    Z_of_byte hi = Z.land (Z.shiftr value 8) 255 /\
    Z_of_byte lo = Z.land value 255 /\
    bytes_of_items (pack_word byteorder value) =
      inr (if String.eqb byteorder "big" then [hi; lo] else [lo; hi]).
Proof.
  destruct (byte_of_Z_in_range _ (land_255_range (Z.shiftr value 8))) as [hi [Hhi1 Hhi2]].
  destruct (byte_of_Z_in_range _ (land_255_range value)) as [lo [Hlo1 Hlo2]].
  exists hi, lo. split; [assumption|]. split; [assumption|].
  pose proof (land_255_range (Z.shiftr value 8)) as Rhi.
  pose proof (land_255_range value) as Rlo.
  assert (Fhi : (Z.land (Z.shiftr value 8) 255 <? 0) || (255 <? Z.land (Z.shiftr value 8) 255) = false)
    by (apply orb_false_iff; split; apply Z.ltb_ge; lia).
  assert (Flo : (Z.land value 255 <? 0) || (255 <? Z.land value 255) = false)
    by (apply orb_false_iff; split; apply Z.ltb_ge; lia).
  unfold pack_word. destruct (String.eqb byteorder "big"); simpl;
    rewrite Fhi, Flo, Hhi1, Hlo1; reflexivity.
Qed.

Lemma word_recombine (value : Z) :
  0 <= value <= 65535 ->
  Z.lor (Z.shiftl (Z.land (Z.shiftr value 8) 255) 8) (Z.land value 255) = value.
Proof.
  intros Hv. apply Z.bits_inj'. intros n Hn.
  rewrite Z.lor_spec, Z.shiftl_spec, !Z.land_spec by lia.
  change 255 with (Z.ones 8).
  destruct (Z.ltb_spec n 8) as [Hlt|Hge].
  - rewrite (Z.testbit_neg_r _ (n - 8)) by lia.
    rewrite (Z.ones_spec_low 8 n) by lia. simpl. now rewrite andb_true_r.
  - rewrite (Z.ones_spec_high 8 n) by lia. rewrite andb_false_r, orb_false_r.
    rewrite Z.shiftr_spec by lia.
    replace (n - 8 + 8) with n by lia.
    destruct (Z.ltb_spec n 16) as [Hlt|Hge16].
    + rewrite Z.ones_spec_low by lia. now rewrite andb_true_r.
    + rewrite Z.ones_spec_high by lia. rewrite andb_false_r.
      symmetry. apply Z.bits_above_log2; [lia|].
      destruct (Z.eq_dec value 0) as [->|Hnz]; [simpl; lia|].
      apply Z.log2_lt_pow2; [lia|].
      assert (2 ^ 16 <= 2 ^ n) by (apply Z.pow_le_mono_r; lia).
      change (2 ^ 16) with 65536 in *. lia.
Qed.

Lemma shift_or_is_sum (hi lo : Z) :
  0 <= hi -> 0 <= lo <= 255 -> Z.lor (Z.shiftl hi 8) lo = 256 * hi + lo.
Proof.
  intros Hhi Hlo.
  assert (Hdisjoint : Z.land (Z.shiftl hi 8) lo = 0).
  { apply Z.bits_inj'. intros n Hn.
    rewrite Z.land_spec, Z.bits_0.
    destruct (Z.ltb_spec n 8) as [Hlt|Hge].
    - rewrite Z.shiftl_spec_low by lia. reflexivity.
    - destruct (Z.eq_dec lo 0) as [->|Hnz];
        [rewrite Z.bits_0; apply andb_false_r|].
      rewrite (Z.bits_above_log2 lo n); [apply andb_false_r|lia|].
      apply Z.log2_lt_pow2; [lia|].
      assert (2 ^ 8 <= 2 ^ n) by (apply Z.pow_le_mono_r; lia).
      change (2 ^ 8) with 256 in *. lia. }
  rewrite <- (Z.lxor_lor _ _ Hdisjoint), <- (Z.add_nocarry_lxor _ _ Hdisjoint).
  rewrite Z.shiftl_mul_pow2 by lia. change (2 ^ 8) with 256. lia.
Qed.

(** ** What each method does on inputs that pass validation *)

Lemma in_range_b (lo hi v : Z) :
  lo <= v <= hi -> (lo <=? v) && (v <=? hi) = true.
Proof.
  intros H. apply andb_true_iff. split; apply Z.leb_le; lia.
Qed.

Lemma out_of_range_b (lo hi v : Z) :
  v < lo \/ hi < v -> (lo <=? v) && (v <=? hi) = false.
Proof.
  intros H. apply andb_false_iff. destruct H; [left|right]; apply Z.leb_gt; lia.
Qed.

Section Methods.

Variable S : Type.
Variable i2c : I2C.driver S.
Implicit Type w : world S.

Ltac pass_check H :=
  unfold bind at 1; rewrite (check_addr_accepts _ _ _ H); cbv beta iota.

Lemma write_byte_run (device_addr reg_addr value : Z) :
  0 <= device_addr <= 127 -> 0 <= value <= 255 ->
  exists b, Z_of_byte b = value /\
    forall w r s',
      I2C.writeto_mem i2c device_addr reg_addr [b] (bus w) = (r, s') ->
      write_byte i2c device_addr reg_addr value w =
      (r, World s' (calls w ++ [(WritetoMem device_addr reg_addr [b], raised r)])
            (stdout w ++ diagnosed
               (mem_diagnostic "записать байт в устройство" device_addr reg_addr)
               (raised r))).
Proof.
  intros Ha Hv.
  destruct (bytes_of_items_ints [value]) as [buf [Hbuf Hval]];
    [repeat constructor; lia|].
  destruct buf as [|b [|]]; try discriminate. injection Hval as Hb.
  exists b. split; [assumption|]. intros w r s' Hprim.
  unfold write_byte. pass_check Ha.
  unfold bind at 1. rewrite (in_range_b _ _ _ Hv). cbv beta iota.
  change (map PyInt [value]) with [PyInt value] in Hbuf.
  rewrite Hbuf.
  apply (transfer_spec S (WritetoMem device_addr reg_addr [b]) _ _ w r s' Hprim).
Qed.

Lemma read_byte_run (device_addr reg_addr : Z) w r s' :
  0 <= device_addr <= 127 ->
  I2C.readfrom_mem i2c device_addr reg_addr 1 (bus w) = (r, s') ->
  exists r',
    read_byte i2c device_addr reg_addr w =
    (r', World s' (calls w ++ [(ReadfromMem device_addr reg_addr 1, raised r)])
           (stdout w ++ diagnosed
              (mem_diagnostic "прочитать байт из устройства" device_addr reg_addr)
              (raised r)))
    /\ match r with
       | inl e => r' = inl e
       | inr data => forall w1 : world S, getitem data 0 w1 = (r', w1)
       end.
Proof.
  intros Ha Hprim. unfold read_byte. pass_check Ha.
  apply (transfer_then_spec S (ReadfromMem device_addr reg_addr 1) _
           (fun data => getitem data 0) _ w r s'); [|assumption].
  intros data. apply getitem_computes.
Qed.

Lemma write_word_run (device_addr reg_addr value : Z) (byteorder : string) :
  0 <= device_addr <= 127 -> 0 <= value <= 65535 ->
  exists hi lo,
    Z_of_byte hi = Z.land (Z.shiftr value 8) 255 /\
    Z_of_byte lo = Z.land value 255 /\
    forall w r s',
      let buf := if String.eqb byteorder "big" then [hi; lo] else [lo; hi] in
      I2C.writeto_mem i2c device_addr reg_addr buf (bus w) = (r, s') ->
      write_word i2c device_addr reg_addr value byteorder w =
      (r, World s' (calls w ++ [(WritetoMem device_addr reg_addr buf, raised r)])
            (stdout w ++ diagnosed
               (mem_diagnostic "записать слово в устройство" device_addr reg_addr)
               (raised r))).
Proof.
  intros Ha Hv.
  destruct (pack_word_bytes byteorder value) as [hi [lo [Hhi [Hlo Hbuf]]]].
  exists hi, lo. split; [assumption|]. split; [assumption|].
  intros w r s' buf Hprim.
  unfold write_word. pass_check Ha.
  unfold bind at 1. rewrite (in_range_b _ _ _ Hv). cbv beta iota zeta.
  rewrite Hbuf.
  apply (transfer_spec S (WritetoMem device_addr reg_addr buf) _ _ w r s' Hprim).
Qed.

Lemma read_word_run (device_addr reg_addr : Z) (byteorder : string) w r s' :
  0 <= device_addr <= 127 ->
  I2C.readfrom_mem i2c device_addr reg_addr 2 (bus w) = (r, s') ->
  exists r',
    read_word i2c device_addr reg_addr byteorder w =
    (r', World s' (calls w ++ [(ReadfromMem device_addr reg_addr 2, raised r)])
           (stdout w ++ diagnosed
              (mem_diagnostic "прочитать слово из устройства" device_addr reg_addr)
              (raised r)))
    /\ match r with
       | inl e => r' = inl e
       | inr data => forall w1 : world S, unpack_word byteorder data w1 = (r', w1)
       end.
Proof.
  intros Ha Hprim. unfold read_word. pass_check Ha.
  apply (transfer_then_spec S (ReadfromMem device_addr reg_addr 2) _
           (unpack_word byteorder) _ w r s'); [|assumption].
  apply unpack_word_computes.
Qed.

Lemma coerce_data_pure (data : pyval) :
  exists r, forall w, coerce_data data w = (r, w).
Proof.
  destruct data; simpl;
    try (exists (inl InvalidData); reflexivity).
  - exists (inr bs). reflexivity.
  - exists (bytes_of_items xs). reflexivity.
Qed.

Lemma write_bytes_run (device_addr reg_addr : Z) (data : pyval) (buf : bytes) w r s' :
  0 <= device_addr <= 127 ->
  coerce_data data w = (inr buf, w) ->
  I2C.writeto_mem i2c device_addr reg_addr buf (bus w) = (r, s') ->
  write_bytes i2c device_addr reg_addr data w =
  (r, World s' (calls w ++ [(WritetoMem device_addr reg_addr buf, raised r)])
        (stdout w ++ diagnosed
           (mem_diagnostic "записать байты в устройство" device_addr reg_addr)
           (raised r))).
Proof.
  intros Ha Hdata Hprim. unfold write_bytes. pass_check Ha.
  unfold bind at 1. rewrite Hdata. cbv beta iota.
  apply (transfer_spec S (WritetoMem device_addr reg_addr buf) _ _ w r s' Hprim).
Qed.

Lemma read_bytes_run (device_addr reg_addr nbytes : Z) w r s' :
  0 <= device_addr <= 127 ->
  I2C.readfrom_mem i2c device_addr reg_addr nbytes (bus w) = (r, s') ->
  read_bytes i2c device_addr reg_addr nbytes w =
  (r, World s' (calls w ++ [(ReadfromMem device_addr reg_addr nbytes, raised r)])
        (stdout w ++ diagnosed
           (mem_diagnostic "прочитать байты из устройства" device_addr reg_addr)
           (raised r))).
Proof.
  intros Ha Hprim. unfold read_bytes. pass_check Ha.
  apply (transfer_spec S (ReadfromMem device_addr reg_addr nbytes) _ _ w r s' Hprim).
Qed.

Lemma write_direct_run (device_addr : Z) (data : pyval) (buf : bytes) w r s' :
  0 <= device_addr <= 127 ->
  coerce_data data w = (inr buf, w) ->
  I2C.writeto i2c device_addr buf (bus w) = (r, s') ->
  write_direct i2c device_addr data w =
  (r, World s' (calls w ++ [(Writeto device_addr buf, raised r)])
        (stdout w ++ diagnosed
           (direct_diagnostic "записать данные на устройство" device_addr)
           (raised r))).
Proof.
  intros Ha Hdata Hprim. unfold write_direct. pass_check Ha.
  unfold bind at 1. rewrite Hdata. cbv beta iota.
  apply (transfer_spec S (Writeto device_addr buf) _ _ w r s' Hprim).
Qed.

Lemma read_direct_run (device_addr nbytes : Z) w r s' :
  0 <= device_addr <= 127 ->
  I2C.readfrom i2c device_addr nbytes (bus w) = (r, s') ->
  read_direct i2c device_addr nbytes w =
  (r, World s' (calls w ++ [(Readfrom device_addr nbytes, raised r)])
        (stdout w ++ diagnosed
           (direct_diagnostic "прочитать данные с устройства" device_addr)
           (raised r))).
Proof.
  intros Ha Hprim. unfold read_direct. pass_check Ha.
  apply (transfer_spec S (Readfrom device_addr nbytes) _ _ w r s' Hprim).
Qed.

(** *** Inputs that validation refuses *)

Ltac fail_check H :=
  unfold bind at 1; rewrite (check_addr_rejects _ _ _ H); reflexivity.

Lemma write_byte_rejects_addr (device_addr reg_addr value : Z) w :
  device_addr < 0 \/ 127 < device_addr ->
  write_byte i2c device_addr reg_addr value w = (inl InvalidAddress, w).
Proof.
  intros Ha. unfold write_byte. fail_check Ha.
Qed.

Lemma write_word_rejects_addr (device_addr reg_addr value : Z) (byteorder : string) w :
  device_addr < 0 \/ 127 < device_addr ->
  write_word i2c device_addr reg_addr value byteorder w = (inl InvalidAddress, w).
Proof.
  intros Ha. unfold write_word. fail_check Ha.
Qed.

Lemma perform_rejects_addr (device_addr : Z) (op : method) w :
  device_addr < 0 \/ 127 < device_addr ->
  perform i2c device_addr op w = (inl InvalidAddress, w).
Proof.
  intros Ha.
  destruct op; unfold perform, fmap; unfold bind at 1;
    [ replace (write_byte i2c device_addr reg_addr value w)
        with (@inl exn unit InvalidAddress, w)
        by (unfold write_byte; fail_check Ha)
    | replace (read_byte i2c device_addr reg_addr w)
        with (@inl exn Z InvalidAddress, w)
        by (unfold read_byte; fail_check Ha)
    | replace (write_word i2c device_addr reg_addr value byteorder w)
        with (@inl exn unit InvalidAddress, w)
        by (unfold write_word; fail_check Ha)
    | replace (read_word i2c device_addr reg_addr byteorder w)
        with (@inl exn Z InvalidAddress, w)
        by (unfold read_word; fail_check Ha)
    | replace (write_bytes i2c device_addr reg_addr data w)
        with (@inl exn unit InvalidAddress, w)
        by (unfold write_bytes; fail_check Ha)
    | replace (read_bytes i2c device_addr reg_addr nbytes w)
        with (@inl exn bytes InvalidAddress, w)
        by (unfold read_bytes; fail_check Ha)
    | replace (write_direct i2c device_addr data w)
        with (@inl exn unit InvalidAddress, w)
        by (unfold write_direct; fail_check Ha)
    | replace (read_direct i2c device_addr nbytes w)
        with (@inl exn bytes InvalidAddress, w)
        by (unfold read_direct; fail_check Ha) ];
    reflexivity.
Qed.

Lemma write_byte_rejects_value (device_addr reg_addr value : Z) w :
  0 <= device_addr <= 127 -> value < 0 \/ 255 < value ->
  write_byte i2c device_addr reg_addr value w = (inl (ValueError byte_msg), w).
Proof.
  intros Ha Hv. unfold write_byte. pass_check Ha.
  unfold bind at 1. rewrite (out_of_range_b _ _ _ Hv). reflexivity.
Qed.

Lemma write_word_rejects_value (device_addr reg_addr value : Z) (byteorder : string) w :
  0 <= device_addr <= 127 -> value < 0 \/ 65535 < value ->
  write_word i2c device_addr reg_addr value byteorder w =
  (inl (ValueError word_msg), w).
Proof.
  intros Ha Hv. unfold write_word. pass_check Ha.
  unfold bind at 1. rewrite (out_of_range_b _ _ _ Hv). reflexivity.
Qed.

Lemma write_bytes_rejects_data (device_addr reg_addr : Z) (data : pyval) (e : exn) w :
  0 <= device_addr <= 127 ->
  coerce_data data w = (inl e, w) ->
  write_bytes i2c device_addr reg_addr data w = (inl e, w).
Proof.
  intros Ha Hdata. unfold write_bytes. pass_check Ha.
  unfold bind at 1. rewrite Hdata. reflexivity.
Qed.

Lemma write_direct_rejects_data (device_addr : Z) (data : pyval) (e : exn) w :
  0 <= device_addr <= 127 ->
  coerce_data data w = (inl e, w) ->
  write_direct i2c device_addr data w = (inl e, w).
Proof.
  intros Ha Hdata. unfold write_direct. pass_check Ha.
  unfold bind at 1. rewrite Hdata. reflexivity.
Qed.

Lemma coerce_data_error (data : pyval) (e : exn) w w' :
  coerce_data data w = (inl e, w') ->
  e = InvalidData
  \/ e = ValueError "bytes value out of range"
  \/ e = TypeError "can't convert to int".
Proof.
  destruct data; simpl; unfold raise, ret, lift;
    try (intros [= <- _]; now left); try discriminate.
  intros [= H _]. right. now apply (bytes_of_items_error xs).
Qed.

(** *** The two ways a method call can go *)

Lemma fmap_transferred {A : Type} (f : A -> pyval) (m : M S A) w
    (r : exn + A) (c : call) (o : outcome) (s' : S) (line : string) :
  m w = (r, World s' (calls w ++ [(c, o)]) (stdout w ++ diagnosed line o)) ->
  (forall e, o = Some e -> r = inl e) ->
  exists r',
    fmap f m w = (r', World s' (calls w ++ [(c, o)]) (stdout w ++ diagnosed line o))
    /\ (forall e, o = Some e -> r' = inl e).
Proof.
  intros Hm Ho. unfold fmap, bind. rewrite Hm.
  destruct r as [e|a].
  - exists (inl e). split; [reflexivity|].
    intros e' He'. specialize (Ho e' He'). congruence.
  - exists (inr (f a)). split; [reflexivity|].
    intros e' He'. specialize (Ho e' He'). discriminate.
Qed.

Lemma raised_inl {A : Type} (r : exn + A) (e : exn) :
  raised r = Some e -> r = inl e.
Proof.
  destruct r; simpl; congruence.
Qed.

Lemma fmap_refused {A : Type} (f : A -> pyval) (m : M S A) w (e : exn) :
  m w = (inl e, w) -> fmap f m w = (inl e, w).
Proof.
  intros Hm. unfold fmap, bind. now rewrite Hm.
Qed.

Lemma perform_shape (device_addr : Z) (op : method) w :
  refused i2c device_addr op w \/ transferred i2c device_addr op w.
Proof.
  destruct (Z_lt_dec device_addr 0) as [Hneg|Hnn];
    [left; exists InvalidAddress;
     split; [apply perform_rejects_addr; lia|split; [discriminate|lia]]|].
  destruct (Z_lt_dec 127 device_addr) as [Hbig|Hle];
    [left; exists InvalidAddress;
     split; [apply perform_rejects_addr; lia|split; [discriminate|lia]]|].
  assert (Ha : 0 <= device_addr <= 127) by lia. clear Hnn Hle.
  destruct op as [reg value|reg|reg value byteorder|reg byteorder
                 |reg data|reg nbytes|data|nbytes]; simpl.
  - (* write_byte *)
    destruct (Z_lt_dec value 0) as [Hv|Hv0];
      [left; exists (ValueError byte_msg);
       split; [apply fmap_refused, write_byte_rejects_value; [assumption|lia]
              |split; discriminate]|].
    destruct (Z_lt_dec 255 value) as [Hv|Hv1];
      [left; exists (ValueError byte_msg);
       split; [apply fmap_refused, write_byte_rejects_value; [assumption|lia]
              |split; discriminate]|].
    right. destruct (write_byte_run device_addr reg value Ha) as [b [_ Hrun]]; [lia|].
    destruct (I2C.writeto_mem i2c device_addr reg [b] (bus w)) as [r s'] eqn:E.
    destruct (fmap_transferred (fun _ => PyNone) _ w _ _ _ _ _ (Hrun w r s' E))
      as [r' [H1 H2]]; [apply raised_inl|].
    do 5 eexists. split; [exact H1|exact H2].
  - (* read_byte *)
    right.
    destruct (I2C.readfrom_mem i2c device_addr reg 1 (bus w)) as [r s'] eqn:E.
    destruct (read_byte_run device_addr reg w r s' Ha E) as [r0 [Hrun Hr0]].
    destruct (fmap_transferred PyInt _ w _ _ _ _ _ Hrun) as [r' [H1 H2]].
    { intros e He. apply raised_inl in He. subst r. exact Hr0. }
    do 5 eexists. split; [exact H1|exact H2].
  - (* write_word *)
    destruct (Z_lt_dec value 0) as [Hv|Hv0];
      [left; exists (ValueError word_msg);
       split; [apply fmap_refused, write_word_rejects_value; [assumption|lia]
              |split; discriminate]|].
    destruct (Z_lt_dec 65535 value) as [Hv|Hv1];
      [left; exists (ValueError word_msg);
       split; [apply fmap_refused, write_word_rejects_value; [assumption|lia]
              |split; discriminate]|].
    right.
    destruct (write_word_run device_addr reg value byteorder Ha)
      as [hi [lo [_ [_ Hrun]]]]; [lia|].
    destruct (I2C.writeto_mem i2c device_addr reg
                (if String.eqb byteorder "big" then [hi; lo] else [lo; hi]) (bus w))
      as [r s'] eqn:E.
    destruct (fmap_transferred (fun _ => PyNone) _ w _ _ _ _ _ (Hrun w r s' E))
      as [r' [H1 H2]]; [apply raised_inl|].
    do 5 eexists. split; [exact H1|exact H2].
  - (* read_word *)
    right.
    destruct (I2C.readfrom_mem i2c device_addr reg 2 (bus w)) as [r s'] eqn:E.
    destruct (read_word_run device_addr reg byteorder w r s' Ha E) as [r0 [Hrun Hr0]].
    destruct (fmap_transferred PyInt _ w _ _ _ _ _ Hrun) as [r' [H1 H2]].
    { intros e He. apply raised_inl in He. subst r. exact Hr0. }
    do 5 eexists. split; [exact H1|exact H2].
  - (* write_bytes *)
    destruct (coerce_data_pure data) as [[e|buf] Hdata].
    + left. exists e.
      split; [apply fmap_refused, write_bytes_rejects_data; [assumption|apply Hdata]|].
      destruct (coerce_data_error data e w w (Hdata w)) as [->|[->| ->]];
        split; discriminate.
    + right.
      destruct (I2C.writeto_mem i2c device_addr reg buf (bus w)) as [r s'] eqn:E.
      destruct (fmap_transferred (fun _ => PyNone) _ w _ _ _ _ _
                  (write_bytes_run device_addr reg data buf w r s' Ha (Hdata w) E))
        as [r' [H1 H2]]; [apply raised_inl|].
      do 5 eexists. split; [exact H1|exact H2].
  - (* read_bytes *)
    right.
    destruct (I2C.readfrom_mem i2c device_addr reg nbytes (bus w)) as [r s'] eqn:E.
    destruct (fmap_transferred PyBytes _ w _ _ _ _ _
                (read_bytes_run device_addr reg nbytes w r s' Ha E))
      as [r' [H1 H2]]; [apply raised_inl|].
    do 5 eexists. split; [exact H1|exact H2].
  - (* write_direct *)
    destruct (coerce_data_pure data) as [[e|buf] Hdata].
    + left. exists e.
      split; [apply fmap_refused, write_direct_rejects_data; [assumption|apply Hdata]|].
      destruct (coerce_data_error data e w w (Hdata w)) as [->|[->| ->]];
        split; discriminate.
    + right.
      destruct (I2C.writeto i2c device_addr buf (bus w)) as [r s'] eqn:E.
      destruct (fmap_transferred (fun _ => PyNone) _ w _ _ _ _ _
                  (write_direct_run device_addr data buf w r s' Ha (Hdata w) E))
        as [r' [H1 H2]]; [apply raised_inl|].
      do 5 eexists. split; [exact H1|exact H2].
  - (* read_direct *)
    right.
    destruct (I2C.readfrom i2c device_addr nbytes (bus w)) as [r s'] eqn:E.
    destruct (fmap_transferred PyBytes _ w _ _ _ _ _
                (read_direct_run device_addr nbytes w r s' Ha E))
      as [r' [H1 H2]]; [apply raised_inl|].
    do 5 eexists. split; [exact H1|exact H2].
Qed.

End Methods.

(** * The contract of the class *)

(** C1: every method that takes a device address fails with the
    address [ValueError], leaving the driver uncalled and the world as
    it was, when the address is outside 0..127; when the address is
    inside, the address check passes, and the address error can reach
    the caller only out of a driver call. *)
Theorem address_validated_before_transport
    (S : Type) (i2c : I2C.driver S) (device_addr : Z) (op : method) (w : world S) :
  (device_addr < 0 \/ 127 < device_addr ->
   perform i2c device_addr op w = (inl InvalidAddress, w))
  /\ (0 <= device_addr <= 127 ->
      _check_addr device_addr w = (inr tt, w)
      /\ (fst (perform i2c device_addr op w) = inl InvalidAddress ->
          calls (snd (perform i2c device_addr op w)) <> calls w)).
Proof.
  split.
  - apply perform_rejects_addr.
  - intros Ha. split; [now apply check_addr_accepts|].
    destruct (perform_shape S i2c device_addr op w)
      as [[e [He [_ Hne]]]|[r [c [o [s' [line [Hr _]]]]]]].
    + rewrite He. simpl. intros [= ->]. now elim (Hne Ha).
    + rewrite Hr. simpl. intros _. apply snoc_differs.
Qed.

Lemma address_validated_before_transport_witness :
  perform Double.i2c 200 (WriteByte 1 255) (Double.fresh Double.two_devices)
    = (inl InvalidAddress, Double.fresh Double.two_devices)
  /\ _check_addr 64 (Double.fresh Double.two_devices)
     = (inr tt, Double.fresh Double.two_devices).
Proof.
  split.
  - apply (proj1 (address_validated_before_transport
                    _ Double.i2c 200 (WriteByte 1 255) _)). lia.
  - apply (proj2 (address_validated_before_transport
                    _ Double.i2c 64 (WriteByte 1 255) (Double.fresh Double.two_devices))).
    lia.
Defined.

(** C2: [write_byte] refuses a value outside 0..255 and [write_word] a
    value outside 0..65535 with a [ValueError], the world untouched and
    the driver uncalled; the error is the value error whenever the
    address is valid.  For a value inside its range the value error can
    reach the caller only out of a driver call. *)
Theorem value_validated_before_transport
    (S : Type) (i2c : I2C.driver S) (device_addr reg_addr value : Z)
    (byteorder : string) (w : world S) :
  (value < 0 \/ 255 < value ->
   exists msg,
     write_byte i2c device_addr reg_addr value w = (inl (ValueError msg), w)
     /\ (0 <= device_addr <= 127 -> msg = byte_msg))
  /\ (value < 0 \/ 65535 < value ->
      exists msg,
        write_word i2c device_addr reg_addr value byteorder w = (inl (ValueError msg), w)
        /\ (0 <= device_addr <= 127 -> msg = word_msg))
  /\ (0 <= value <= 255 ->
      fst (write_byte i2c device_addr reg_addr value w) = inl (ValueError byte_msg) ->
      calls (snd (write_byte i2c device_addr reg_addr value w)) <> calls w)
  /\ (0 <= value <= 65535 ->
      fst (write_word i2c device_addr reg_addr value byteorder w)
        = inl (ValueError word_msg) ->
      calls (snd (write_word i2c device_addr reg_addr value byteorder w)) <> calls w).
Proof.
  assert (Hcases : device_addr < 0 \/ 127 < device_addr \/ 0 <= device_addr <= 127) by lia.
  repeat split.
  - intros Hv. destruct Hcases as [Ha|[Ha|Ha]].
    + exists addr_msg. split; [apply write_byte_rejects_addr; lia|lia].
    + exists addr_msg. split; [apply write_byte_rejects_addr; lia|lia].
    + exists byte_msg. split; [now apply write_byte_rejects_value|reflexivity].
  - intros Hv. destruct Hcases as [Ha|[Ha|Ha]].
    + exists addr_msg. split; [apply write_word_rejects_addr; lia|lia].
    + exists addr_msg. split; [apply write_word_rejects_addr; lia|lia].
    + exists word_msg. split; [now apply write_word_rejects_value|reflexivity].
  - intros Hv.
    assert (Hbad : device_addr < 0 \/ 127 < device_addr \/ 0 <= device_addr <= 127) by lia.
    destruct Hbad as [Ha|[Ha|Ha]];
      try (rewrite write_byte_rejects_addr by lia; simpl; discriminate).
    destruct (write_byte_run S i2c device_addr reg_addr value Ha Hv) as [b [_ Hrun]].
    destruct (I2C.writeto_mem i2c device_addr reg_addr [b] (bus w)) as [r s'] eqn:E.
    rewrite (Hrun w r s' E). simpl. intros _. apply snoc_differs.
  - intros Hv.
    assert (Hbad : device_addr < 0 \/ 127 < device_addr \/ 0 <= device_addr <= 127) by lia.
    destruct Hbad as [Ha|[Ha|Ha]];
      try (rewrite write_word_rejects_addr by lia; simpl; discriminate).
    destruct (write_word_run S i2c device_addr reg_addr value byteorder Ha Hv)
      as [hi [lo [_ [_ Hrun]]]].
    destruct (I2C.writeto_mem i2c device_addr reg_addr
                (if String.eqb byteorder "big" then [hi; lo] else [lo; hi]) (bus w))
      as [r s'] eqn:E.
    rewrite (Hrun w r s' E). simpl. intros _. apply snoc_differs.
Qed.

Lemma value_validated_before_transport_witness :
  (exists msg,
     write_byte Double.i2c 64 1 300 (Double.fresh Double.two_devices)
       = (inl (ValueError msg), Double.fresh Double.two_devices)
     /\ (0 <= 64 <= 127 -> msg = byte_msg))
  /\ (exists msg,
        write_word Double.i2c 64 2 70000 "big" (Double.fresh Double.two_devices)
          = (inl (ValueError msg), Double.fresh Double.two_devices)
        /\ (0 <= 64 <= 127 -> msg = word_msg))
  /\ (fst (write_byte Double.i2c 64 1 255 (Double.fresh Double.two_devices))
        = inl (ValueError byte_msg) ->
      calls (snd (write_byte Double.i2c 64 1 255 (Double.fresh Double.two_devices)))
        <> calls (Double.fresh Double.two_devices))
  /\ (fst (write_word Double.i2c 64 2 65535 "big" (Double.fresh Double.two_devices))
        = inl (ValueError word_msg) ->
      calls (snd (write_word Double.i2c 64 2 65535 "big" (Double.fresh Double.two_devices)))
        <> calls (Double.fresh Double.two_devices)).
Proof.
  split; [|split; [|split]].
  - apply (proj1 (value_validated_before_transport
                    _ Double.i2c 64 1 300 "big" (Double.fresh Double.two_devices))).
    lia.
  - apply (proj1 (proj2 (value_validated_before_transport
                    _ Double.i2c 64 2 70000 "big" (Double.fresh Double.two_devices)))).
    lia.
  - apply (proj1 (proj2 (proj2 (value_validated_before_transport
                    _ Double.i2c 64 1 255 "big" (Double.fresh Double.two_devices))))).
    lia.
  - apply (proj2 (proj2 (proj2 (value_validated_before_transport
                    _ Double.i2c 64 2 65535 "big" (Double.fresh Double.two_devices))))).
    lia.
Defined.

(** C3: for a value in 0..65535, [write_word] hands the driver exactly
    two bytes, the high byte [(value >> 8) & 0xFF] first under ['big']
    and the low byte [value & 0xFF] first under ['little']; 0xABCD goes
    out as AB CD and as CD AB. *)
Theorem write_word_byte_order :
  (forall (S : Type) (i2c : I2C.driver S) (device_addr reg_addr value : Z) (w : world S),
      0 <= device_addr <= 127 -> 0 <= value <= 65535 ->
      exists hi lo,
        Z_of_byte hi = Z.land (Z.shiftr value 8) 255
        /\ Z_of_byte lo = Z.land value 255
        /\ (exists o,
               calls (snd (write_word i2c device_addr reg_addr value "big" w))
               = calls w ++ [(WritetoMem device_addr reg_addr [hi; lo], o)])
        /\ (exists o,
               calls (snd (write_word i2c device_addr reg_addr value "little" w))
               = calls w ++ [(WritetoMem device_addr reg_addr [lo; hi], o)]))
  /\ bytes_of_items (pack_word "big" 43981) = inr [xab; xcd]
  /\ bytes_of_items (pack_word "little" 43981) = inr [xcd; xab].
Proof.
  split; [|split; reflexivity].
  intros S i2c device_addr reg_addr value w Ha Hv.
  destruct (write_word_run S i2c device_addr reg_addr value "big" Ha Hv)
    as [hi [lo [Hhi [Hlo Hbig]]]].
  destruct (write_word_run S i2c device_addr reg_addr value "little" Ha Hv)
    as [hi' [lo' [Hhi' [Hlo' Hlittle]]]].
  assert (Ehi : hi' = hi) by (apply Z_of_byte_inj; congruence).
  assert (Elo : lo' = lo) by (apply Z_of_byte_inj; congruence).
  subst hi' lo'.
  exists hi, lo. split; [assumption|]. split; [assumption|]. split.
  - destruct (I2C.writeto_mem i2c device_addr reg_addr [hi; lo] (bus w))
      as [r s'] eqn:E.
    exists (raised r). now rewrite (Hbig w r s' E).
  - destruct (I2C.writeto_mem i2c device_addr reg_addr [lo; hi] (bus w))
      as [r s'] eqn:E.
    exists (raised r). now rewrite (Hlittle w r s' E).
Qed.

Lemma write_word_byte_order_witness :
  exists hi lo,
    Z_of_byte hi = Z.land (Z.shiftr 43981 8) 255
    /\ Z_of_byte lo = Z.land 43981 255
    /\ (exists o,
           calls (snd (write_word Double.i2c 64 2 43981 "big"
                         (Double.fresh Double.two_devices)))
           = calls (Double.fresh Double.two_devices)
               ++ [(WritetoMem 64 2 [hi; lo], o)])
    /\ (exists o,
           calls (snd (write_word Double.i2c 64 2 43981 "little"
                         (Double.fresh Double.two_devices)))
           = calls (Double.fresh Double.two_devices)
               ++ [(WritetoMem 64 2 [lo; hi], o)]).
Proof.
  apply (proj1 write_word_byte_order _ Double.i2c 64 2 43981
           (Double.fresh Double.two_devices)); lia.
Defined.

(** C4: packing a word the way [write_word] does and unpacking the two
    bytes the way [read_word] does, under the same byte-order tag,
    gives the word back; so does [read_word] itself when the driver
    answers with the bytes [write_word] sent. *)
Theorem word_roundtrip
    (S : Type) (i2c : I2C.driver S) (byteorder : string) (value : Z) :
  0 <= value <= 65535 ->
  exists buf,
    bytes_of_items (pack_word byteorder value) = inr buf
    /\ (forall w : world S, unpack_word byteorder buf w = (inr value, w))
    /\ (forall device_addr reg_addr (w : world S),
           0 <= device_addr <= 127 ->
           exists o,
             calls (snd (write_word i2c device_addr reg_addr value byteorder w))
             = calls w ++ [(WritetoMem device_addr reg_addr buf, o)])
    /\ (forall device_addr reg_addr (w : world S) s',
           0 <= device_addr <= 127 ->
           I2C.readfrom_mem i2c device_addr reg_addr 2 (bus w) = (inr buf, s') ->
           fst (read_word i2c device_addr reg_addr byteorder w) = inr value).
Proof.
  intros Hv.
  destruct (pack_word_bytes byteorder value) as [hi [lo [Hhi [Hlo Hbuf]]]].
  exists (if String.eqb byteorder "big" then [hi; lo] else [lo; hi]).
  assert (Hunpack : forall w : world S,
             unpack_word byteorder
               (if String.eqb byteorder "big" then [hi; lo] else [lo; hi]) w
             = (inr value, w)).
  { intros w. unfold unpack_word.
    destruct (String.eqb byteorder "big");
      cbv [bind getitem ret nth_error];
      rewrite Hhi, Hlo, (word_recombine value Hv); reflexivity. }
  split; [exact Hbuf|]. split; [exact Hunpack|]. split.
  - intros device_addr reg_addr w Ha.
    destruct (write_word_run S i2c device_addr reg_addr value byteorder Ha Hv)
      as [hi' [lo' [Hhi' [Hlo' Hrun]]]].
    assert (Ehi : hi' = hi) by (apply Z_of_byte_inj; congruence).
    assert (Elo : lo' = lo) by (apply Z_of_byte_inj; congruence).
    subst hi' lo'.
    destruct (I2C.writeto_mem i2c device_addr reg_addr
                (if String.eqb byteorder "big" then [hi; lo] else [lo; hi]) (bus w))
      as [r s'] eqn:E.
    exists (raised r). now rewrite (Hrun w r s' E).
  - intros device_addr reg_addr w s' Ha Hprim.
    destruct (read_word_run S i2c device_addr reg_addr byteorder w _ s' Ha Hprim)
      as [r' [Hrun Hr']].
    rewrite Hrun. simpl.
    specialize (Hr' w). rewrite Hunpack in Hr'. congruence.
Qed.

Lemma word_roundtrip_witness :
  exists buf,
    bytes_of_items (pack_word "big" 4660) = inr buf
    /\ (forall w : world Double.state, unpack_word "big" buf w = (inr 4660, w))
    /\ (forall device_addr reg_addr (w : world Double.state),
           0 <= device_addr <= 127 ->
           exists o,
             calls (snd (write_word Double.i2c device_addr reg_addr 4660 "big" w))
             = calls w ++ [(WritetoMem device_addr reg_addr buf, o)])
    /\ (forall device_addr reg_addr (w : world Double.state) s',
           0 <= device_addr <= 127 ->
           I2C.readfrom_mem Double.i2c device_addr reg_addr 2 (bus w) = (inr buf, s') ->
           fst (read_word Double.i2c device_addr reg_addr "big" w) = inr 4660).
Proof.
  apply (word_roundtrip _ Double.i2c "big" 4660). lia.
Defined.

(** C9: the address check comes first: with the address outside 0..127
    and the value outside its range as well, [write_byte] and
    [write_word] fail with the address error, which is not the value
    error. *)
Theorem address_checked_before_value
    (S : Type) (i2c : I2C.driver S) (device_addr reg_addr value : Z)
    (byteorder : string) (w : world S) :
  device_addr < 0 \/ 127 < device_addr ->
  (value < 0 \/ 255 < value ->
   write_byte i2c device_addr reg_addr value w = (inl InvalidAddress, w))
  /\ (value < 0 \/ 65535 < value ->
      write_word i2c device_addr reg_addr value byteorder w = (inl InvalidAddress, w))
  /\ InvalidAddress <> ValueError byte_msg
  /\ InvalidAddress <> ValueError word_msg.
Proof.
  intros Ha. split; [|split; [|split]].
  - intros _. now apply write_byte_rejects_addr.
  - intros _. now apply write_word_rejects_addr.
  - discriminate.
  - discriminate.
Qed.

Lemma address_checked_before_value_witness :
  write_byte Double.i2c 128 1 256 (Double.fresh Double.two_devices)
    = (inl InvalidAddress, Double.fresh Double.two_devices)
  /\ write_word Double.i2c (-1) 2 65536 "big" (Double.fresh Double.two_devices)
     = (inl InvalidAddress, Double.fresh Double.two_devices).
Proof.
  split.
  - apply (proj1 (address_checked_before_value
                    _ Double.i2c 128 1 256 "big" (Double.fresh Double.two_devices)
                    ltac:(lia))).
    lia.
  - apply (proj1 (proj2 (address_checked_before_value
                    _ Double.i2c (-1) 2 65536 "big" (Double.fresh Double.two_devices)
                    ltac:(lia)))).
    lia.
Defined.

(** C10: a byte-order tag is never refused, and any tag other than
    ['big'] is little-endian.  With such a tag [write_word] and
    [read_word] are the very computations they are with ['little'];
    [write_word], given a valid address and value, hands the driver
    the low byte first and ends the way that driver call ends, raising
    nothing of its own; [read_word], given a valid address and a driver
    answer of at least two bytes, returns the word whose low byte is
    the first one. *)
Theorem unknown_byteorder_is_little
    (S : Type) (i2c : I2C.driver S) (device_addr reg_addr value : Z)
    (byteorder : string) (w : world S) :
  byteorder <> "big" ->
  (write_word i2c device_addr reg_addr value byteorder
     = write_word i2c device_addr reg_addr value "little"
   /\ read_word i2c device_addr reg_addr byteorder
      = read_word i2c device_addr reg_addr "little")
  /\ (0 <= device_addr <= 127 -> 0 <= value <= 65535 ->
      exists hi lo,
        Z_of_byte hi = Z.land (Z.shiftr value 8) 255
        /\ Z_of_byte lo = Z.land value 255
        /\ forall r s',
             I2C.writeto_mem i2c device_addr reg_addr [lo; hi] (bus w) = (r, s') ->
             fst (write_word i2c device_addr reg_addr value byteorder w) = r
             /\ calls (snd (write_word i2c device_addr reg_addr value byteorder w))
                = calls w ++ [(WritetoMem device_addr reg_addr [lo; hi], raised r)])
  /\ (0 <= device_addr <= 127 ->
      forall d0 d1 rest s',
        I2C.readfrom_mem i2c device_addr reg_addr 2 (bus w)
          = (inr (d0 :: d1 :: rest), s') ->
        fst (read_word i2c device_addr reg_addr byteorder w)
          = inr (256 * Z_of_byte d1 + Z_of_byte d0)
        /\ calls (snd (read_word i2c device_addr reg_addr byteorder w))
           = calls w ++ [(ReadfromMem device_addr reg_addr 2, None)]).
Proof.
  intros Hne. apply String.eqb_neq in Hne. split; [|split].
  - unfold write_word, read_word, pack_word, unpack_word.
    rewrite Hne. split; reflexivity.
  - intros Ha Hv.
    destruct (write_word_run S i2c device_addr reg_addr value byteorder Ha Hv)
      as [hi [lo [Hhi [Hlo Hrun]]]].
    rewrite Hne in Hrun.
    exists hi, lo. split; [assumption|]. split; [assumption|].
    intros r s' Hprim. rewrite (Hrun w r s' Hprim). split; reflexivity.
  - intros Ha d0 d1 rest s' Hprim.
    destruct (read_word_run S i2c device_addr reg_addr byteorder w _ s' Ha Hprim)
      as [r' [Hrun Hr']].
    rewrite Hrun. cbn [fst snd calls raised].
    specialize (Hr' w). unfold unpack_word in Hr'. rewrite Hne in Hr'.
    cbv [bind getitem ret nth_error] in Hr'.
    pose proof (Z_of_byte_range d0) as R0. pose proof (Z_of_byte_range d1) as R1.
    rewrite shift_or_is_sum in Hr' by lia.
    injection Hr' as <-. split; reflexivity.
Qed.

Lemma unknown_byteorder_is_little_witness :
  (write_word Double.i2c 64 2 4660 "BIG" = write_word Double.i2c 64 2 4660 "little"
   /\ read_word Double.i2c 64 2 "BIG" = read_word Double.i2c 64 2 "little")
  /\ (exists hi lo,
        Z_of_byte hi = Z.land (Z.shiftr 4660 8) 255
        /\ Z_of_byte lo = Z.land 4660 255
        /\ forall r s',
             I2C.writeto_mem Double.i2c 64 2 [lo; hi]
               (bus (Double.fresh Double.two_devices)) = (r, s') ->
             fst (write_word Double.i2c 64 2 4660 "BIG" (Double.fresh Double.two_devices))
               = r
             /\ calls (snd (write_word Double.i2c 64 2 4660 "BIG"
                              (Double.fresh Double.two_devices)))
                = calls (Double.fresh Double.two_devices)
                    ++ [(WritetoMem 64 2 [lo; hi], raised r)])
  /\ (fst (read_word Double.i2c 64 2 "BIG"
             (snd (write_word Double.i2c 64 2 4660 "BIG"
                     (Double.fresh Double.two_devices))))
        = inr (256 * Z_of_byte x12 + Z_of_byte x34)
      /\ calls (snd (read_word Double.i2c 64 2 "BIG"
                       (snd (write_word Double.i2c 64 2 4660 "BIG"
                               (Double.fresh Double.two_devices)))))
         = calls (snd (write_word Double.i2c 64 2 4660 "BIG"
                         (Double.fresh Double.two_devices)))
             ++ [(ReadfromMem 64 2 2, None)]).
Proof.
  split; [|split].
  - apply (proj1 (unknown_byteorder_is_little _ Double.i2c 64 2 4660 "BIG"
                    (Double.fresh Double.two_devices) ltac:(discriminate))).
  - apply (proj1 (proj2 (unknown_byteorder_is_little _ Double.i2c 64 2 4660 "BIG"
                           (Double.fresh Double.two_devices) ltac:(discriminate))));
      lia.
  - apply (proj2 (proj2 (unknown_byteorder_is_little _ Double.i2c 64 2 4660 "BIG"
                           (snd (write_word Double.i2c 64 2 4660 "BIG"
                                   (Double.fresh Double.two_devices)))
                           ltac:(discriminate)))
             ltac:(lia) x34 x12 []
             (bus (snd (write_word Double.i2c 64 2 4660 "BIG"
                          (Double.fresh Double.two_devices))))).
    reflexivity.
Defined.

(** The listing [scan] prints: one line per device, nothing else
    touched. *)
Lemma print_devices_run (S : Type) (devices : list Z) (w : world S) :
  print_devices devices w =
  (inr tt,
   World (bus w) (calls w)
     (stdout w ++ map (fun addr => (" - Адрес: 0x" ++ format_02X addr)%string) devices)).
Proof.
  revert w. induction devices as [|addr rest IH]; intros w.
  - simpl. unfold ret. rewrite app_nil_r. now destruct w.
  - cbn [print_devices map]. unfold bind, print. rewrite IH. cbn [bus calls stdout].
    now rewrite <- app_assoc.
Qed.

(** C5: [scan] returns the same list, and leaves the driver in the same
    state after the same single call, whether [verbose] is set or not;
    without [verbose] nothing is printed, with it the report is only
    appended to the output. *)
Theorem scan_result_independent_of_verbose
    (S : Type) (i2c : I2C.driver S) (w : world S) :
  fst (scan i2c true w) = fst (scan i2c false w)
  /\ bus (snd (scan i2c true w)) = bus (snd (scan i2c false w))
  /\ calls (snd (scan i2c true w)) = calls (snd (scan i2c false w))
  /\ stdout (snd (scan i2c false w)) = stdout w
  /\ exists report, stdout (snd (scan i2c true w)) = stdout w ++ report.
Proof.
  unfold scan, i2c_scan, bind, invoke.
  destruct (I2C.scan i2c (bus w)) as [[e|devices] s'].
  - cbn. repeat split. exists []. now rewrite app_nil_r.
  - destruct devices as [|addr rest].
    + cbn. repeat split. now eexists.
    + cbv beta iota. unfold ret.
      change (print "Обнаружены устройства I2C:"
                (World s' (calls w ++ [(Scan, raised (inr (addr :: rest)))]) (stdout w)))
        with (@inr exn unit tt,
              World s' (calls w ++ [(Scan, raised (inr (addr :: rest)))])
                (stdout w ++ ["Обнаружены устройства I2C:"])).
      cbv beta iota. rewrite print_devices_run. cbn [fst snd bus calls stdout].
      repeat split. rewrite <- app_assoc. now eexists.
Qed.




(** A list of integers that [bytes(...)] refuses is refused with a
    [ValueError]. *)
Lemma bytes_of_items_int_error (xs : list pyval) (e : exn) :
  forallb is_int xs = true ->
  bytes_of_items xs = inl e ->
  e = ValueError "bytes value out of range".
Proof.
  induction xs as [|x rest IH]; simpl; [discriminate|].
  intros Hall. apply andb_true_iff in Hall. destruct Hall as [Hx Hrest].
  destruct x; try discriminate; simpl.
  - destruct ((_ <? 0) || (255 <? _)); [now intros [= <-]|].
    destruct (byte_of_Z _); [|now intros [= <-]].
    destruct (bytes_of_items rest); [|discriminate].
    intros [= <-]. now apply IH.
  - destruct ((z <? 0) || (255 <? z)); [now intros [= <-]|].
    destruct (byte_of_Z z); [|now intros [= <-]].
    destruct (bytes_of_items rest); [|discriminate].
    intros [= <-]. now apply IH.
Qed.

(** C6, as the code has it: with a valid device address, [write_bytes]
    and [write_direct] refuse a [data] that is neither a list nor a
    [bytes] object with the data [ValueError]; a list that
    [bytes(...)] cannot convert is refused with what [bytes(...)]
    raises, a [ValueError] when all its items are integers and
    otherwise a [ValueError] or a [TypeError]; in each case the world
    is untouched and the driver uncalled.  A list of integers in 0..255
    is converted and handed to the driver. *)
Theorem data_validated_before_transport
    (S : Type) (i2c : I2C.driver S) (device_addr reg_addr : Z) (data : pyval)
    (w : world S) :
  0 <= device_addr <= 127 ->
  ((forall xs, data <> PyList xs) -> (forall bs, data <> PyBytes bs) ->
   write_bytes i2c device_addr reg_addr data w = (inl InvalidData, w)
   /\ write_direct i2c device_addr data w = (inl InvalidData, w))
  /\ (forall xs e, data = PyList xs -> bytes_of_items xs = inl e ->
        write_bytes i2c device_addr reg_addr data w = (inl e, w)
        /\ write_direct i2c device_addr data w = (inl e, w)
        /\ (exists msg, e = ValueError msg \/ e = TypeError msg)
        /\ (forallb is_int xs = true -> exists msg, e = ValueError msg))
  /\ (forall zs, data = PyList (map PyInt zs) ->
        Forall (fun z => 0 <= z <= 255) zs ->
        exists buf,
          map Z_of_byte buf = zs
          /\ (exists o,
                 calls (snd (write_bytes i2c device_addr reg_addr data w))
                 = calls w ++ [(WritetoMem device_addr reg_addr buf, o)])
          /\ (exists o,
                 calls (snd (write_direct i2c device_addr data w))
                 = calls w ++ [(Writeto device_addr buf, o)])).
Proof.
  intros Ha. split; [|split].
  - intros Hlist Hbytes.
    assert (Hdata : coerce_data data w = (inl InvalidData, w)).
    { destruct data; try reflexivity.
      - now elim (Hbytes bs).
      - now elim (Hlist xs). }
    split.
    + now apply write_bytes_rejects_data.
    + now apply write_direct_rejects_data.
  - intros xs e -> He.
    assert (Hdata : coerce_data (PyList xs) w = (inl e, w))
      by (simpl; unfold lift; now rewrite He).
    split; [now apply write_bytes_rejects_data|].
    split; [now apply write_direct_rejects_data|].
    split.
    + destruct (bytes_of_items_error xs e He) as [-> | ->]; eexists; eauto.
    + intros Hall. eexists. exact (bytes_of_items_int_error xs e Hall He).
  - intros zs -> Hzs.
    destruct (bytes_of_items_ints zs Hzs) as [buf [Hbuf Hval]].
    assert (Hdata : coerce_data (PyList (map PyInt zs)) w = (inr buf, w))
      by (simpl; unfold lift; now rewrite Hbuf).
    exists buf. split; [assumption|]. split.
    + destruct (I2C.writeto_mem i2c device_addr reg_addr buf (bus w)) as [r s'] eqn:E.
      exists (raised r).
      now rewrite (write_bytes_run S i2c device_addr reg_addr _ buf w r s' Ha Hdata E).
    + destruct (I2C.writeto i2c device_addr buf (bus w)) as [r s'] eqn:E.
      exists (raised r).
      now rewrite (write_direct_run S i2c device_addr _ buf w r s' Ha Hdata E).
Qed.

Lemma data_validated_before_transport_witness :
  (write_bytes Double.i2c 64 3 (PyStr "abc") (Double.fresh Double.two_devices)
     = (inl InvalidData, Double.fresh Double.two_devices)
   /\ write_direct Double.i2c 64 (PyStr "abc") (Double.fresh Double.two_devices)
      = (inl InvalidData, Double.fresh Double.two_devices))
  /\ exists buf,
       map Z_of_byte buf = [1; 2; 3]
       /\ (exists o,
              calls (snd (write_bytes Double.i2c 64 3 (PyList (map PyInt [1; 2; 3]))
                            (Double.fresh Double.two_devices)))
              = calls (Double.fresh Double.two_devices) ++ [(WritetoMem 64 3 buf, o)])
       /\ (exists o,
              calls (snd (write_direct Double.i2c 64 (PyList (map PyInt [1; 2; 3]))
                            (Double.fresh Double.two_devices)))
              = calls (Double.fresh Double.two_devices) ++ [(Writeto 64 buf, o)]).
Proof.
  split.
  - apply (proj1 (data_validated_before_transport
                    _ Double.i2c 64 3 (PyStr "abc") (Double.fresh Double.two_devices)
                    ltac:(lia)));
      discriminate.
  - apply (proj2 (proj2 (data_validated_before_transport
                    _ Double.i2c 64 3 (PyList (map PyInt [1; 2; 3]))
                    (Double.fresh Double.two_devices) ltac:(lia))) [1; 2; 3]).
    + reflexivity.
    + repeat constructor; lia.
Defined.

(** C6, as stated, fails: a list holding a string is neither a [bytes]
    object nor a list of integers, and [write_bytes] and [write_direct]
    answer it with a [TypeError], not with a [ValueError]. *)
Lemma list_of_str_raises_TypeError :
  (forall bs, PyList [PyStr "a"] <> PyBytes bs)
  /\ forallb is_int [PyStr "a"] = false
  /\ write_bytes Double.i2c 64 3 (PyList [PyStr "a"]) (Double.fresh Double.two_devices)
     = (inl (TypeError "can't convert to int"), Double.fresh Double.two_devices)
  /\ write_direct Double.i2c 64 (PyList [PyStr "a"]) (Double.fresh Double.two_devices)
     = (inl (TypeError "can't convert to int"), Double.fresh Double.two_devices)
  /\ ~ (exists msg,
           fst (write_bytes Double.i2c 64 3 (PyList [PyStr "a"])
                  (Double.fresh Double.two_devices))
           = inl (ValueError msg))
  /\ ~ (exists msg,
           fst (write_direct Double.i2c 64 (PyList [PyStr "a"])
                  (Double.fresh Double.two_devices))
           = inl (ValueError msg)).
Proof.
  split; [discriminate|].
  split; [reflexivity|].
  split; [reflexivity|].
  split; [reflexivity|].
  split; intros [msg H]; discriminate H.
Qed.

(** C7, as the code has it: when the driver call an address-taking
    method makes raises [OSError], the method prints one diagnostic
    line and raises that same [OSError]; no method calls the driver
    more than once.  [scan] hands the driver's [OSError] on as well,
    after its single call, but prints nothing. *)
Theorem transport_failure_propagates (S : Type) (i2c : I2C.driver S) :
  (forall device_addr op (w : world S) c errno,
      calls (snd (perform i2c device_addr op w))
        = calls w ++ [(c, Some (OSError errno))] ->
      fst (perform i2c device_addr op w) = inl (OSError errno)
      /\ exists line,
           stdout (snd (perform i2c device_addr op w)) = stdout w ++ [line])
  /\ (forall device_addr op (w : world S),
         (List.length (calls (snd (perform i2c device_addr op w)))
          <= List.length (calls w) + 1)%nat)
  /\ (forall verbose (w : world S) errno s',
         I2C.scan i2c (bus w) = (inl (OSError errno), s') ->
         scan i2c verbose w
         = (inl (OSError errno),
            World s' (calls w ++ [(Scan, Some (OSError errno))]) (stdout w))).
Proof.
  split; [|split].
  - intros device_addr op w c errno Hcalls.
    destruct (perform_shape S i2c device_addr op w)
      as [[e [He _]]|[r [c' [o [s' [line [Hr Ho]]]]]]].
    + rewrite He in Hcalls. simpl in Hcalls.
      symmetry in Hcalls. now apply snoc_differs in Hcalls.
    + rewrite Hr in *. cbn [fst snd calls stdout] in *.
      apply app_inv_head in Hcalls. injection Hcalls as -> ->.
      split; [now apply Ho|]. now exists line.
  - intros device_addr op w.
    destruct (perform_shape S i2c device_addr op w)
      as [[e [He _]]|[r [c' [o [s' [line [Hr Ho]]]]]]].
    + rewrite He. simpl. lia.
    + rewrite Hr. cbn [snd calls]. rewrite length_app. simpl. lia.
  - intros verbose w errno s' Hscan.
    unfold scan, i2c_scan, bind, invoke. now rewrite Hscan.
Qed.

Lemma transport_failure_propagates_witness :
  fst (perform Double.i2c 64 (WriteByte 1 255) (Double.fresh Double.faulty))
    = inl (OSError 5)
  /\ (exists line,
         stdout (snd (perform Double.i2c 64 (WriteByte 1 255) (Double.fresh Double.faulty)))
         = stdout (Double.fresh Double.faulty) ++ [line])
  /\ scan Double.i2c true (Double.fresh Double.faulty)
     = (inl (OSError 5), World Double.faulty [(Scan, Some (OSError 5))] []).
Proof.
  split; [|split].
  - apply (proj1 (transport_failure_propagates _ Double.i2c)
             64 (WriteByte 1 255) (Double.fresh Double.faulty)
             (WritetoMem 64 1 [xff]) 5).
    reflexivity.
  - apply (proj1 (transport_failure_propagates _ Double.i2c)
             64 (WriteByte 1 255) (Double.fresh Double.faulty)
             (WritetoMem 64 1 [xff]) 5).
    reflexivity.
  - apply (proj2 (proj2 (transport_failure_propagates _ Double.i2c))
             true (Double.fresh Double.faulty) 5 Double.faulty).
    reflexivity.
Defined.

(** C7, as stated, fails for [scan]: on a bus whose every primitive
    raises [OSError], [scan] is called, the driver raises, [scan]
    raises the same error, and no diagnostic has been printed. *)
Lemma scan_failure_has_no_diagnostic :
  calls (snd (scan Double.i2c true (Double.fresh Double.faulty)))
    = calls (Double.fresh Double.faulty) ++ [(Scan, Some (OSError 5))]
  /\ fst (scan Double.i2c true (Double.fresh Double.faulty)) = inl (OSError 5)
  /\ stdout (snd (scan Double.i2c true (Double.fresh Double.faulty)))
     = stdout (Double.fresh Double.faulty)
  /\ ~ (exists line,
           stdout (snd (scan Double.i2c true (Double.fresh Double.faulty)))
           = stdout (Double.fresh Double.faulty) ++ [line]).
Proof.
  split; [reflexivity|]. split; [reflexivity|]. split; [reflexivity|].
  intros [line H]. discriminate H.
Qed.

(** ** The scenarios of the usage example, on the double *)

Example format_02X_3C : format_02X 60 = "3C".
Proof. reflexivity. Qed.

Example format_02X_5 : format_02X 5 = "05".
Proof. reflexivity. Qed.

Example format_02X_300 : format_02X 300 = "12C".
Proof. reflexivity. Qed.

Example format_02X_neg : format_02X (-1) = "-1".
Proof. reflexivity. Qed.

Example scan_two_devices :
  scan Double.i2c true (Double.fresh Double.two_devices)
  = (inr [60; 64],
     World Double.two_devices [(Scan, None)]
       ["Обнаружены устройства I2C:"; " - Адрес: 0x3C"; " - Адрес: 0x40"]).
Proof. reflexivity. Qed.

Example write_then_read_byte :
  let w1 := snd (write_byte Double.i2c 64 1 255 (Double.fresh Double.two_devices)) in
  calls w1 = [(WritetoMem 64 1 [xff], None)]
  /\ fst (read_byte Double.i2c 64 1 w1) = inr 255.
Proof. split; reflexivity. Qed.

Example write_then_read_word_big :
  let w1 := snd (write_word Double.i2c 64 2 4660 "big" (Double.fresh Double.two_devices)) in
  calls w1 = [(WritetoMem 64 2 [x12; x34], None)]
  /\ fst (read_word Double.i2c 64 2 "big" w1) = inr 4660.
Proof. split; reflexivity. Qed.

Example write_then_read_word_little :
  let w1 := snd (write_word Double.i2c 64 2 4660 "little" (Double.fresh Double.two_devices)) in
  calls w1 = [(WritetoMem 64 2 [x34; x12], None)]
  /\ fst (read_word Double.i2c 64 2 "little" w1) = inr 4660.
Proof. split; reflexivity. Qed.

Example write_then_read_bytes :
  let data := PyList [PyInt 1; PyInt 2; PyInt 3] in
  let w1 := snd (write_bytes Double.i2c 64 3 data (Double.fresh Double.two_devices)) in
  fst (read_bytes Double.i2c 64 3 3 w1) = inr [x01; x02; x03].
Proof. reflexivity. Qed.

Example absent_device_diagnostic :
  write_bytes Double.i2c 65 3 (PyList [PyInt 25]) (Double.fresh Double.two_devices)
  = (inl (OSError Double.ENODEV),
     World Double.two_devices [(WritetoMem 65 3 [x19], Some (OSError Double.ENODEV))]
       ["Ошибка: Не удалось записать байты в устройство 0x41, регистр 0x03"]).
Proof. reflexivity. Qed.

(** * Beyond the contract *)

(** ** [scan] *)

Lemma scan_run (S : Type) (i2c : I2C.driver S) (verbose : bool) (w : world S)
    (devices : list Z) (s' : S) :
  I2C.scan i2c (bus w) = (inr devices, s') ->
  scan i2c verbose w
  = (inr devices,
     World s' (calls w ++ [(Scan, None)])
       (stdout w ++
        if verbose then
          match devices with
          | [] => ["Устройства не найдены."]
          | _ :: _ =>
              "Обнаружены устройства I2C:"
              :: map (fun addr => (" - Адрес: 0x" ++ format_02X addr)%string) devices
          end
        else [])).
Proof.
  intros Hscan. unfold scan, i2c_scan, bind, invoke. rewrite Hscan.
  destruct verbose; [|cbn; now rewrite app_nil_r].
  destruct devices as [|addr rest]; [reflexivity|].
  cbv beta iota. unfold ret.
  change (print "Обнаружены устройства I2C:"
            (World s' (calls w ++ [(Scan, raised (inr (addr :: rest)))]) (stdout w)))
    with (@inr exn unit tt,
          World s' (calls w ++ [(Scan, raised (inr (addr :: rest)))])
            (stdout w ++ ["Обнаружены устройства I2C:"])).
  cbv beta iota. rewrite print_devices_run. cbn [bus calls stdout raised].
  now rewrite <- app_assoc.
Qed.

(** X1: when the driver's scan succeeds, [scan] returns the driver's
    list as it is, in the driver's order, after that one driver call
    and in the driver state it left, whatever [verbose]. *)
Theorem scan_returns_driver_list
    (S : Type) (i2c : I2C.driver S) (verbose : bool) (w : world S)
    (devices : list Z) (s' : S) :
  I2C.scan i2c (bus w) = (inr devices, s') ->
  fst (scan i2c verbose w) = inr devices
  /\ bus (snd (scan i2c verbose w)) = s'
  /\ calls (snd (scan i2c verbose w)) = calls w ++ [(Scan, None)].
Proof.
  intros Hscan. rewrite (scan_run S i2c verbose w devices s' Hscan).
  repeat split.
Qed.

Lemma scan_returns_driver_list_witness :
  fst (scan Double.i2c false (Double.fresh Double.two_devices)) = inr [60; 64]
  /\ bus (snd (scan Double.i2c false (Double.fresh Double.two_devices)))
     = Double.two_devices
  /\ calls (snd (scan Double.i2c false (Double.fresh Double.two_devices)))
     = calls (Double.fresh Double.two_devices) ++ [(Scan, None)].
Proof.
  apply (scan_returns_driver_list _ Double.i2c false
           (Double.fresh Double.two_devices) [60; 64] Double.two_devices).
  reflexivity.
Defined.

(** X2: the report of a verbose [scan]: a header and then one line per
    device, in scan order, or the single line saying none was found
    when the list is empty. *)
Theorem scan_report_lines
    (S : Type) (i2c : I2C.driver S) (w : world S) (devices : list Z) (s' : S) :
  I2C.scan i2c (bus w) = (inr devices, s') ->
  stdout (snd (scan i2c true w))
  = stdout w ++
    match devices with
    | [] => ["Устройства не найдены."]
    | _ :: _ =>
        "Обнаружены устройства I2C:"
        :: map (fun addr => (" - Адрес: 0x" ++ format_02X addr)%string) devices
    end.
Proof.
  intros Hscan. now rewrite (scan_run S i2c true w devices s' Hscan).
Qed.

Lemma scan_report_lines_witness :
  stdout (snd (scan Double.i2c true (Double.fresh Double.two_devices)))
  = stdout (Double.fresh Double.two_devices) ++
    "Обнаружены устройства I2C:"
    :: map (fun addr => (" - Адрес: 0x" ++ format_02X addr)%string) [60; 64].
Proof.
  apply (scan_report_lines _ Double.i2c (Double.fresh Double.two_devices)
           [60; 64] Double.two_devices).
  reflexivity.
Defined.

(** X3: [scan] guards nothing: whatever exception the driver's scan
    raises reaches the caller as it is, after that one call, and
    neither a report nor a diagnostic is printed. *)
Theorem scan_propagates_driver_exception
    (S : Type) (i2c : I2C.driver S) (verbose : bool) (w : world S)
    (e : exn) (s' : S) :
  I2C.scan i2c (bus w) = (inl e, s') ->
  scan i2c verbose w
  = (inl e, World s' (calls w ++ [(Scan, Some e)]) (stdout w)).
Proof.
  intros Hscan. unfold scan, i2c_scan, bind, invoke. now rewrite Hscan.
Qed.

Lemma scan_propagates_driver_exception_witness :
  scan Double.i2c true (Double.fresh Double.faulty)
  = (inl (OSError 5),
     World Double.faulty
       (calls (Double.fresh Double.faulty) ++ [(Scan, Some (OSError 5))])
       (stdout (Double.fresh Double.faulty))).
Proof.
  apply (scan_propagates_driver_exception _ Double.i2c true
           (Double.fresh Double.faulty) (OSError 5) Double.faulty).
  reflexivity.
Defined.

(** ** Reading *)

Lemma read_byte_returns (S : Type) (i2c : I2C.driver S)
    (device_addr reg_addr : Z) (w : world S) (v : Z) :
  fst (read_byte i2c device_addr reg_addr w) = inr v ->
  0 <= device_addr <= 127
  /\ exists b rest s',
       I2C.readfrom_mem i2c device_addr reg_addr 1 (bus w) = (inr (b :: rest), s')
       /\ v = Z_of_byte b.
Proof.
  intros Hret.
  assert (Ha : 0 <= device_addr <= 127).
  { destruct (Z_lt_dec device_addr 0) as [Hl|Hl];
      [|destruct (Z_lt_dec 127 device_addr) as [Hg|Hg]; [|lia]].
    - unfold read_byte, bind in Hret.
      rewrite check_addr_rejects in Hret by lia. discriminate.
    - unfold read_byte, bind in Hret.
      rewrite check_addr_rejects in Hret by lia. discriminate. }
  split; [assumption|].
  destruct (I2C.readfrom_mem i2c device_addr reg_addr 1 (bus w)) as [r s'] eqn:E.
  destruct (read_byte_run S i2c device_addr reg_addr w r s' Ha E) as [r' [Hrun Hr']].
  rewrite Hrun in Hret. simpl in Hret. subst r'.
  destruct r as [e|data]; [discriminate|].
  specialize (Hr' w). unfold getitem in Hr'.
  destruct data as [|b rest]; simpl in Hr'; [discriminate|].
  injection Hr' as Hv. exists b, rest, s'. split; [reflexivity|congruence].
Qed.

(** X4: [read_byte] returns the first byte of the driver's answer:
    whenever it returns a value, the address was valid, the driver
    answered the one-byte read with at least one byte, and the value is
    that first byte, so it lies in 0..255; and with a valid address,
    whenever the driver answers with at least one byte, [read_byte]
    returns the first one, whatever follows it. *)
Theorem read_byte_in_range
    (S : Type) (i2c : I2C.driver S) (device_addr reg_addr : Z) (w : world S) :
  (forall v,
      fst (read_byte i2c device_addr reg_addr w) = inr v ->
      0 <= v <= 255
      /\ 0 <= device_addr <= 127
      /\ exists b rest s',
           I2C.readfrom_mem i2c device_addr reg_addr 1 (bus w) = (inr (b :: rest), s')
           /\ v = Z_of_byte b)
  /\ (0 <= device_addr <= 127 ->
      forall b rest s',
        I2C.readfrom_mem i2c device_addr reg_addr 1 (bus w) = (inr (b :: rest), s') ->
        read_byte i2c device_addr reg_addr w
        = (inr (Z_of_byte b),
           World s' (calls w ++ [(ReadfromMem device_addr reg_addr 1, None)])
             (stdout w))).
Proof.
  split.
  - intros v Hret.
    destruct (read_byte_returns S i2c device_addr reg_addr w v Hret)
      as [Ha [b [rest [s' [Hprim ->]]]]].
    split; [apply Z_of_byte_range|]. split; [assumption|].
    now exists b, rest, s'.
  - intros Ha b rest s' Hprim.
    destruct (read_byte_run S i2c device_addr reg_addr w _ s' Ha Hprim)
      as [r' [Hrun Hr']].
    rewrite Hrun. cbn [raised diagnosed]. rewrite app_nil_r.
    specialize (Hr' w). unfold getitem in Hr'. cbv [nth_error ret] in Hr'.
    injection Hr' as <-. reflexivity.
Qed.

Lemma read_byte_in_range_witness :
  (0 <= 255 <= 255
   /\ 0 <= 64 <= 127
   /\ exists b rest s',
        I2C.readfrom_mem Double.i2c 64 1 1
          (bus (snd (write_byte Double.i2c 64 1 255 (Double.fresh Double.two_devices))))
        = (inr (b :: rest), s')
        /\ 255 = Z_of_byte b)
  /\ read_byte Double.i2c 64 1
       (snd (write_byte Double.i2c 64 1 255 (Double.fresh Double.two_devices)))
     = (inr (Z_of_byte xff),
        World (bus (snd (write_byte Double.i2c 64 1 255
                           (Double.fresh Double.two_devices))))
          (calls (snd (write_byte Double.i2c 64 1 255
                         (Double.fresh Double.two_devices)))
           ++ [(ReadfromMem 64 1 1, None)])
          (stdout (snd (write_byte Double.i2c 64 1 255
                          (Double.fresh Double.two_devices))))).
Proof.
  split.
  - apply (proj1 (read_byte_in_range _ Double.i2c 64 1
                    (snd (write_byte Double.i2c 64 1 255
                            (Double.fresh Double.two_devices)))) 255).
    reflexivity.
  - apply (proj2 (read_byte_in_range _ Double.i2c 64 1
                    (snd (write_byte Double.i2c 64 1 255
                            (Double.fresh Double.two_devices))))
             ltac:(lia) xff []
             (bus (snd (write_byte Double.i2c 64 1 255
                          (Double.fresh Double.two_devices))))).
    reflexivity.
Defined.




(** X6: a driver answer that is too short is not caught: on an empty
    answer [read_byte], and on an answer of fewer than two bytes
    [read_word], raises [IndexError] after the one driver call, and no
    diagnostic is printed. *)
Theorem short_answer_raises_IndexError
    (S : Type) (i2c : I2C.driver S) (device_addr reg_addr : Z) (byteorder : string)
    (w : world S) :
  0 <= device_addr <= 127 ->
  (forall s',
      I2C.readfrom_mem i2c device_addr reg_addr 1 (bus w) = (inr [], s') ->
      read_byte i2c device_addr reg_addr w
      = (inl (IndexError "bytes index out of range"),
         World s' (calls w ++ [(ReadfromMem device_addr reg_addr 1, None)]) (stdout w)))
  /\ (forall data s',
         I2C.readfrom_mem i2c device_addr reg_addr 2 (bus w) = (inr data, s') ->
         (List.length data < 2)%nat ->
         read_word i2c device_addr reg_addr byteorder w
         = (inl (IndexError "bytes index out of range"),
            World s' (calls w ++ [(ReadfromMem device_addr reg_addr 2, None)])
              (stdout w))).
Proof.
  intros Ha. split.
  - intros s' Hprim.
    destruct (read_byte_run S i2c device_addr reg_addr w _ s' Ha Hprim)
      as [r' [Hrun Hr']].
    rewrite Hrun. specialize (Hr' w). cbn [raised diagnosed]. rewrite app_nil_r.
    unfold getitem, raise in Hr'. cbv [nth_error] in Hr'.
    injection Hr' as <-. reflexivity.
  - intros data s' Hprim Hlen.
    destruct (read_word_run S i2c device_addr reg_addr byteorder w _ s' Ha Hprim)
      as [r' [Hrun Hr']].
    rewrite Hrun. specialize (Hr' w). cbn [raised diagnosed]. rewrite app_nil_r.
    assert (Hr : r' = inl (IndexError "bytes index out of range")).
    { unfold unpack_word, bind, getitem, raise, ret in Hr'.
      destruct data as [|d0 [|d1 rest]]; [| |simpl in Hlen; lia];
        destruct (String.eqb byteorder "big"); cbv [nth_error] in Hr';
        injection Hr' as <-; reflexivity. }
    now rewrite Hr.
Qed.

Lemma short_answer_raises_IndexError_witness :
  read_byte Mute.i2c 64 1 Mute.fresh
  = (inl (IndexError "bytes index out of range"),
     World tt (calls Mute.fresh ++ [(ReadfromMem 64 1 1, None)]) (stdout Mute.fresh))
  /\ read_word Mute.i2c 64 2 "big" Mute.fresh
     = (inl (IndexError "bytes index out of range"),
        World tt (calls Mute.fresh ++ [(ReadfromMem 64 2 2, None)]) (stdout Mute.fresh)).
Proof.
  split.
  - apply (proj1 (short_answer_raises_IndexError
                    _ Mute.i2c 64 1 "big" Mute.fresh ltac:(lia))).
    reflexivity.
  - apply (proj2 (short_answer_raises_IndexError
                    _ Mute.i2c 64 2 "big" Mute.fresh ltac:(lia)) [] tt).
    + reflexivity.
    + simpl. lia.
Defined.

(** X7: [read_bytes] and [read_direct] check neither [nbytes] nor the
    length of the answer: with a valid device address, whatever the
    driver returns or raises for that [nbytes] is what the caller gets,
    and the driver is left in the state that call produced. *)
Theorem block_reads_pass_through
    (S : Type) (i2c : I2C.driver S) (device_addr reg_addr nbytes : Z) (w : world S) :
  0 <= device_addr <= 127 ->
  (forall r s',
      I2C.readfrom_mem i2c device_addr reg_addr nbytes (bus w) = (r, s') ->
      fst (read_bytes i2c device_addr reg_addr nbytes w) = r
      /\ bus (snd (read_bytes i2c device_addr reg_addr nbytes w)) = s'
      /\ calls (snd (read_bytes i2c device_addr reg_addr nbytes w))
         = calls w ++ [(ReadfromMem device_addr reg_addr nbytes, raised r)])
  /\ (forall r s',
         I2C.readfrom i2c device_addr nbytes (bus w) = (r, s') ->
         fst (read_direct i2c device_addr nbytes w) = r
         /\ bus (snd (read_direct i2c device_addr nbytes w)) = s'
         /\ calls (snd (read_direct i2c device_addr nbytes w))
            = calls w ++ [(Readfrom device_addr nbytes, raised r)]).
Proof.
  intros Ha. split; intros r s' Hprim.
  - rewrite (read_bytes_run S i2c device_addr reg_addr nbytes w r s' Ha Hprim).
    repeat split.
  - rewrite (read_direct_run S i2c device_addr nbytes w r s' Ha Hprim).
    repeat split.
Qed.

Lemma block_reads_pass_through_witness :
  (fst (read_bytes Mute.i2c 64 3 (-5) Mute.fresh) = inr []
   /\ bus (snd (read_bytes Mute.i2c 64 3 (-5) Mute.fresh)) = tt
   /\ calls (snd (read_bytes Mute.i2c 64 3 (-5) Mute.fresh))
      = calls Mute.fresh ++ [(ReadfromMem 64 3 (-5), raised (@inr exn bytes []))])
  /\ (fst (read_direct Mute.i2c 64 2 Mute.fresh) = inr []
      /\ bus (snd (read_direct Mute.i2c 64 2 Mute.fresh)) = tt
      /\ calls (snd (read_direct Mute.i2c 64 2 Mute.fresh))
         = calls Mute.fresh ++ [(Readfrom 64 2, raised (@inr exn bytes []))]).
Proof.
  split.
  - apply (proj1 (block_reads_pass_through _ Mute.i2c 64 3 (-5) Mute.fresh ltac:(lia))
             (inr []) tt).
    reflexivity.
  - apply (proj2 (block_reads_pass_through _ Mute.i2c 64 3 2 Mute.fresh ltac:(lia))
             (inr []) tt).
    reflexivity.
Defined.

(** ** Writing *)

Lemma byte_of_Z_of_byte (b : byte) : byte_of_Z (Z_of_byte b) = Some b.
Proof.
  unfold byte_of_Z, Z_of_byte. rewrite N2Z.id. apply Byte.of_to_N.
Qed.

Lemma byte_of_Z_some (z : Z) (b : byte) :
  0 <= z -> byte_of_Z z = Some b -> Z_of_byte b = z.
Proof.
  unfold byte_of_Z, Z_of_byte. intros Hz H.
  apply Byte.to_of_N in H. rewrite H. apply Z2N.id. assumption.
Qed.

Lemma bytes_of_items_sound (xs : list pyval) (buf : bytes) :
  bytes_of_items xs = inr buf ->
  Forall2 (fun x b => get_int x = inr (Z_of_byte b)) xs buf.
Proof.
  revert buf. induction xs as [|x rest IH]; intros buf; simpl.
  - intros [= <-]. constructor.
  - destruct (get_int x) as [e|z] eqn:Ex; [discriminate|].
    destruct (Z.ltb_spec z 0) as [Hneg|Hnn]; [discriminate|].
    destruct (255 <? z); [discriminate|]. simpl.
    destruct (byte_of_Z z) as [b|] eqn:Hb; [|discriminate].
    destruct (bytes_of_items rest) as [e|bs]; [discriminate|].
    intros [= <-]. constructor; [|now apply IH].
    cbv beta. now rewrite Ex, (byte_of_Z_some z b Hnn Hb).
Qed.

Lemma bytes_of_items_complete (xs : list pyval) (buf : bytes) :
  Forall2 (fun x b => get_int x = inr (Z_of_byte b)) xs buf ->
  bytes_of_items xs = inr buf.
Proof.
  induction 1 as [|x b rest bs Hx _ IH]; simpl; [reflexivity|].
  rewrite Hx. pose proof (Z_of_byte_range b) as Hr.
  replace ((Z_of_byte b <? 0) || (255 <? Z_of_byte b)) with false
    by (symmetry; apply orb_false_iff; split; apply Z.ltb_ge; lia).
  now rewrite byte_of_Z_of_byte, IH.
Qed.

Lemma byte_items_of_Forall2 (xs : list pyval) (buf : bytes) :
  Forall2 (fun x b => get_int x = inr (Z_of_byte b)) xs buf ->
  Forall (fun x => exists z, get_int x = inr z /\ 0 <= z <= 255) xs.
Proof.
  induction 1 as [|x b rest bs Hx _ IH]; constructor; [|assumption].
  exists (Z_of_byte b). split; [assumption|apply Z_of_byte_range].
Qed.

Lemma bytes_of_items_total (xs : list pyval) :
  Forall (fun x => exists z, get_int x = inr z /\ 0 <= z <= 255) xs ->
  exists buf, bytes_of_items xs = inr buf.
Proof.
  induction 1 as [|x rest [z [Hz Hr]] _ [buf IH]].
  - now exists [].
  - destruct (byte_of_Z_in_range z Hr) as [b [_ Hb]].
    exists (b :: buf). apply bytes_of_items_complete.
    constructor; [congruence|]. now apply bytes_of_items_sound.
Qed.

(** X8: a [bytes] object given to [write_bytes] or [write_direct] goes
    to the driver as it is, the empty one included; [write_direct]
    uses the driver's plain write, with no register address. *)
Theorem bytes_object_sent_unchanged
    (S : Type) (i2c : I2C.driver S) (device_addr reg_addr : Z) (bs : bytes)
    (w : world S) :
  0 <= device_addr <= 127 ->
  (exists o,
      calls (snd (write_bytes i2c device_addr reg_addr (PyBytes bs) w))
      = calls w ++ [(WritetoMem device_addr reg_addr bs, o)])
  /\ (exists o,
         calls (snd (write_direct i2c device_addr (PyBytes bs) w))
         = calls w ++ [(Writeto device_addr bs, o)]).
Proof.
  intros Ha. split.
  - destruct (I2C.writeto_mem i2c device_addr reg_addr bs (bus w)) as [r s'] eqn:E.
    exists (raised r).
    now rewrite (write_bytes_run S i2c device_addr reg_addr (PyBytes bs) bs w r s'
                   Ha eq_refl E).
  - destruct (I2C.writeto i2c device_addr bs (bus w)) as [r s'] eqn:E.
    exists (raised r).
    now rewrite (write_direct_run S i2c device_addr (PyBytes bs) bs w r s'
                   Ha eq_refl E).
Qed.

Lemma bytes_object_sent_unchanged_witness :
  (exists o,
      calls (snd (write_bytes Double.i2c 64 3 (PyBytes []) (Double.fresh Double.two_devices)))
      = calls (Double.fresh Double.two_devices) ++ [(WritetoMem 64 3 [], o)])
  /\ (exists o,
         calls (snd (write_direct Double.i2c 64 (PyBytes []) (Double.fresh Double.two_devices)))
         = calls (Double.fresh Double.two_devices) ++ [(Writeto 64 [], o)]).
Proof.
  apply (bytes_object_sent_unchanged _ Double.i2c 64 3 []
           (Double.fresh Double.two_devices)).
  lia.
Defined.

(** X9: with a valid device address, [write_bytes] and [write_direct]
    reach the driver with a list exactly when every item of the list
    is an integer (or a boolean) in 0..255; the bytes sent are then the
    items, one byte each, in order. *)
Theorem list_sent_iff_all_items_bytes
    (S : Type) (i2c : I2C.driver S) (device_addr reg_addr : Z) (xs : list pyval)
    (w : world S) :
  0 <= device_addr <= 127 ->
  (Forall (fun x => exists z, get_int x = inr z /\ 0 <= z <= 255) xs
   <-> calls (snd (write_bytes i2c device_addr reg_addr (PyList xs) w)) <> calls w)
  /\ (Forall (fun x => exists z, get_int x = inr z /\ 0 <= z <= 255) xs
      <-> calls (snd (write_direct i2c device_addr (PyList xs) w)) <> calls w)
  /\ (forall c o,
         calls (snd (write_bytes i2c device_addr reg_addr (PyList xs) w))
         = calls w ++ [(c, o)] ->
         exists buf,
           c = WritetoMem device_addr reg_addr buf
           /\ Forall2 (fun x b => get_int x = inr (Z_of_byte b)) xs buf)
  /\ (forall c o,
         calls (snd (write_direct i2c device_addr (PyList xs) w))
         = calls w ++ [(c, o)] ->
         exists buf,
           c = Writeto device_addr buf
           /\ Forall2 (fun x b => get_int x = inr (Z_of_byte b)) xs buf).
Proof.
  intros Ha.
  pose proof (byte_items_of_Forall2 xs) as Hback.
  pose proof (bytes_of_items_total xs) as Hconv.
  destruct (bytes_of_items xs) as [e|buf] eqn:Hitems.
  - (* the conversion fails: nothing is sent *)
    assert (Hdata : coerce_data (PyList xs) w = (inl e, w))
      by (simpl; unfold lift; now rewrite Hitems).
    rewrite (write_bytes_rejects_data S i2c device_addr reg_addr _ e w Ha Hdata).
    rewrite (write_direct_rejects_data S i2c device_addr _ e w Ha Hdata).
    cbn [snd].
    assert (Hnot : ~ Forall (fun x => exists z, get_int x = inr z /\ 0 <= z <= 255) xs)
      by (intros Hall; destruct (Hconv Hall) as [buf Hbuf]; discriminate).
    repeat split; try tauto;
      intros c o Hc; symmetry in Hc; now apply snoc_differs in Hc.
  - (* the conversion succeeds: the bytes are sent *)
    assert (Hdata : coerce_data (PyList xs) w = (inr buf, w))
      by (simpl; unfold lift; now rewrite Hitems).
    apply bytes_of_items_sound in Hitems.
    destruct (I2C.writeto_mem i2c device_addr reg_addr buf (bus w)) as [r s'] eqn:E.
    destruct (I2C.writeto i2c device_addr buf (bus w)) as [r1 s1] eqn:E1.
    rewrite (write_bytes_run S i2c device_addr reg_addr _ buf w r s' Ha Hdata E).
    rewrite (write_direct_run S i2c device_addr _ buf w r1 s1 Ha Hdata E1).
    cbn [snd calls].
    repeat split; try (intros _; apply snoc_differs); try (intros _; now apply (Hback buf)).
    + intros c o Hc. apply app_inv_head in Hc. injection Hc as <- _.
      now exists buf.
    + intros c o Hc. apply app_inv_head in Hc. injection Hc as <- _.
      now exists buf.
Qed.

Lemma list_sent_iff_all_items_bytes_witness :
  (Forall (fun x => exists z, get_int x = inr z /\ 0 <= z <= 255)
     [PyInt 170; PyBool true]
   <-> calls (snd (write_bytes Double.i2c 64 3 (PyList [PyInt 170; PyBool true])
                     (Double.fresh Double.two_devices)))
       <> calls (Double.fresh Double.two_devices))
  /\ (forall c o,
         calls (snd (write_direct Double.i2c 64 (PyList [PyInt 170; PyBool true])
                       (Double.fresh Double.two_devices)))
         = calls (Double.fresh Double.two_devices) ++ [(c, o)] ->
         exists buf,
           c = Writeto 64 buf
           /\ Forall2 (fun x b => get_int x = inr (Z_of_byte b))
                [PyInt 170; PyBool true] buf).
Proof.
  pose proof (list_sent_iff_all_items_bytes _ Double.i2c 64 3
                [PyInt 170; PyBool true] (Double.fresh Double.two_devices)
                ltac:(lia)) as [H1 [_ [_ H4]]].
  split; [exact H1|exact H4].
Defined.

(** ** Failures *)

(** X10: a method prints only on its way out with an [OSError]: when
    the call ends in anything else, a return or another exception,
    nothing has been printed. *)
Theorem prints_only_on_OSError
    (S : Type) (i2c : I2C.driver S) (device_addr : Z) (op : method) (w : world S) :
  (forall errno, fst (perform i2c device_addr op w) <> inl (OSError errno)) ->
  stdout (snd (perform i2c device_addr op w)) = stdout w.
Proof.
  intros Hne.
  destruct (perform_shape S i2c device_addr op w)
    as [[e [He _]]|[r [c [o [s' [line [Hr Ho]]]]]]].
  - now rewrite He.
  - rewrite Hr in *. cbn [fst snd stdout] in *.
    destruct o as [[errno|msg|msg|msg]|]; cbn; rewrite ?app_nil_r; try reflexivity.
    elim (Hne errno). now apply Ho.
Qed.

Lemma prints_only_on_OSError_witness :
  stdout (snd (perform Double.i2c 64 (WriteByte 1 255) (Double.fresh Double.two_devices)))
  = stdout (Double.fresh Double.two_devices).
Proof.
  apply (prints_only_on_OSError _ Double.i2c 64 (WriteByte 1 255)
           (Double.fresh Double.two_devices)).
  discriminate.
Defined.

(** X11: whatever exception the driver call of a method raises, an
    [OSError] or not, is the exception the caller gets; one that is not
    an [OSError] passes without a diagnostic. *)
Theorem driver_exception_reaches_caller
    (S : Type) (i2c : I2C.driver S) (device_addr : Z) (op : method) (w : world S)
    (c : call) (e : exn) :
  calls (snd (perform i2c device_addr op w)) = calls w ++ [(c, Some e)] ->
  fst (perform i2c device_addr op w) = inl e
  /\ ((forall errno, e <> OSError errno) ->
      stdout (snd (perform i2c device_addr op w)) = stdout w).
Proof.
  intros Hcalls.
  destruct (perform_shape S i2c device_addr op w)
    as [[e' [He _]]|[r [c' [o [s' [line [Hr Ho]]]]]]].
  - rewrite He in Hcalls. simpl in Hcalls.
    symmetry in Hcalls. now apply snoc_differs in Hcalls.
  - rewrite Hr in *. cbn [fst snd calls stdout] in *.
    apply app_inv_head in Hcalls. injection Hcalls as -> ->.
    split; [now apply Ho|].
    intros Hne. destruct e as [errno|msg|msg|msg]; cbn; rewrite ?app_nil_r;
      try reflexivity.
    now elim (Hne errno).
Qed.

Lemma driver_exception_reaches_caller_witness :
  fst (perform Picky.i2c 64 (WriteByte 70000 5) Picky.fresh)
    = inl (ValueError "memaddr out of range")
  /\ ((forall errno, ValueError "memaddr out of range" <> OSError errno) ->
      stdout (snd (perform Picky.i2c 64 (WriteByte 70000 5) Picky.fresh))
      = stdout Picky.fresh).
Proof.
  apply (driver_exception_reaches_caller _ Picky.i2c 64 (WriteByte 70000 5)
           Picky.fresh (WritetoMem 64 70000 [x05])).
  reflexivity.
Defined.

(** X12: with a valid device address and a valid payload, each writing
    method ends the way its driver call ended: it returns when the
    driver returned and raises what the driver raised, leaving the
    driver in the state that call produced. *)
Theorem writes_end_as_the_driver_call
    (S : Type) (i2c : I2C.driver S) (device_addr reg_addr : Z) (w : world S) :
  0 <= device_addr <= 127 ->
  (forall value, 0 <= value <= 255 ->
     exists buf r s',
       I2C.writeto_mem i2c device_addr reg_addr buf (bus w) = (r, s')
       /\ fst (write_byte i2c device_addr reg_addr value w) = r
       /\ bus (snd (write_byte i2c device_addr reg_addr value w)) = s')
  /\ (forall value byteorder, 0 <= value <= 65535 ->
        exists buf r s',
          I2C.writeto_mem i2c device_addr reg_addr buf (bus w) = (r, s')
          /\ fst (write_word i2c device_addr reg_addr value byteorder w) = r
          /\ bus (snd (write_word i2c device_addr reg_addr value byteorder w)) = s')
  /\ (forall data buf, coerce_data data w = (inr buf, w) ->
        exists r s',
          I2C.writeto_mem i2c device_addr reg_addr buf (bus w) = (r, s')
          /\ fst (write_bytes i2c device_addr reg_addr data w) = r
          /\ bus (snd (write_bytes i2c device_addr reg_addr data w)) = s')
  /\ (forall data buf, coerce_data data w = (inr buf, w) ->
        exists r s',
          I2C.writeto i2c device_addr buf (bus w) = (r, s')
          /\ fst (write_direct i2c device_addr data w) = r
          /\ bus (snd (write_direct i2c device_addr data w)) = s').
Proof.
  intros Ha. split; [|split; [|split]].
  - intros value Hv.
    destruct (write_byte_run S i2c device_addr reg_addr value Ha Hv) as [b [_ Hrun]].
    destruct (I2C.writeto_mem i2c device_addr reg_addr [b] (bus w)) as [r s'] eqn:E.
    exists [b], r, s'. rewrite (Hrun w r s' E). repeat split. exact E.
  - intros value byteorder Hv.
    destruct (write_word_run S i2c device_addr reg_addr value byteorder Ha Hv)
      as [hi [lo [_ [_ Hrun]]]].
    destruct (I2C.writeto_mem i2c device_addr reg_addr
                (if String.eqb byteorder "big" then [hi; lo] else [lo; hi]) (bus w))
      as [r s'] eqn:E.
    eexists. exists r, s'. rewrite (Hrun w r s' E). repeat split. exact E.
  - intros data buf Hdata.
    destruct (I2C.writeto_mem i2c device_addr reg_addr buf (bus w)) as [r s'] eqn:E.
    exists r, s'.
    rewrite (write_bytes_run S i2c device_addr reg_addr data buf w r s' Ha Hdata E).
    repeat split.
  - intros data buf Hdata.
    destruct (I2C.writeto i2c device_addr buf (bus w)) as [r s'] eqn:E.
    exists r, s'.
    rewrite (write_direct_run S i2c device_addr data buf w r s' Ha Hdata E).
    repeat split.
Qed.

Lemma writes_end_as_the_driver_call_witness :
  exists buf r s',
    I2C.writeto_mem Double.i2c 65 1 buf (bus (Double.fresh Double.two_devices))
    = (r, s')
    /\ fst (write_byte Double.i2c 65 1 255 (Double.fresh Double.two_devices)) = r
    /\ bus (snd (write_byte Double.i2c 65 1 255 (Double.fresh Double.two_devices)))
       = s'.
Proof.
  apply (proj1 (writes_end_as_the_driver_call _ Double.i2c 65 1
                  (Double.fresh Double.two_devices) ltac:(lia)) 255).
  lia.
Defined.

(** ** Hexadecimal text *)

Ltac digit_value :=
  match goal with
  | |- context [hex_digit_value ?c] =>
      let v := eval vm_compute in (hex_digit_value c) in
      change (hex_digit_value c) with v; cbv beta iota
  end.

Lemma parse_upper_hex_acc (u : Hexadecimal.uint) (p : positive) :
  parse_hex_digits (Zpos p) (upper_hex u) = Some (Zpos (Pos.of_hex_uint_acc u p)).
Proof.
  revert p. induction u; intros p;
    cbn [upper_hex parse_hex_digits Pos.of_hex_uint_acc];
    try reflexivity; digit_value;
    match goal with
    | |- parse_hex_digits ?a _ = Some (Zpos (Pos.of_hex_uint_acc _ ?q)) =>
        replace a with (Zpos q) by (cbn; lia); apply IHu
    end.
Qed.

Lemma parse_upper_hex (u : Hexadecimal.uint) :
  parse_hex_digits 0 (upper_hex u) = Some (Z.of_N (Pos.of_hex_uint u)).
Proof.
  induction u; cbn [upper_hex parse_hex_digits Pos.of_hex_uint];
    try reflexivity; digit_value; try exact IHu;
    match goal with
    | |- parse_hex_digits ?a _ = _ =>
        let v := eval cbv in a in change a with v
    end;
    rewrite parse_upper_hex_acc; reflexivity.
Qed.

Lemma upper_hex_head (u : Hexadecimal.uint) :
  u <> Nil ->
  exists c rest, upper_hex u = String c rest /\ c <> "-"%char.
Proof.
  destruct u; intros Hnil; try (now elim Hnil);
    cbn [upper_hex]; eexists; eexists; (split; [reflexivity|discriminate]).
Qed.

Lemma parse_hex_upper_hex (p : positive) :
  parse_hex (upper_hex (Pos.to_hex_uint p)) = Some (Zpos p)
  /\ parse_hex_digits 0 (upper_hex (Pos.to_hex_uint p)) = Some (Zpos p).
Proof.
  assert (Hdigits : parse_hex_digits 0 (upper_hex (Pos.to_hex_uint p)) = Some (Zpos p))
    by (rewrite parse_upper_hex, HexadecimalPos.Unsigned.of_to; reflexivity).
  split; [|exact Hdigits].
  destruct (upper_hex_head _ (HexadecimalPos.Unsigned.to_uint_nonnil p))
    as [c [rest [Hs Hc]]].
  rewrite Hs in *. unfold parse_hex.
  destruct c as [[] [] [] [] [] [] [] []]; try exact Hdigits.
  now elim Hc.
Qed.

(** X13: the hexadecimal text the f-strings print for a number reads
    back as that number, whatever the number is; two different device
    or register addresses never print alike. *)
Theorem format_02X_reads_back (z : Z) :
  parse_hex (format_02X z) = Some z.
Proof.
  unfold format_02X. destruct z as [|p|p].
  - reflexivity.
  - destruct (parse_hex_upper_hex p) as [Hfull Hdigits].
    destruct (String.length (upper_hex (Pos.to_hex_uint p)) <? 2)%nat; [|exact Hfull].
    exact Hdigits.
  - destruct (parse_hex_upper_hex p) as [_ Hdigits].
    destruct (upper_hex_head _ (HexadecimalPos.Unsigned.to_uint_nonnil p))
      as [c [rest [Hs Hc]]].
    rewrite Hs in *. cbn [parse_hex]. rewrite Hdigits. reflexivity.
Qed.

Lemma format_02X_two_chars_upto_255 :
  forallb (fun n => Nat.eqb (String.length (format_02X (Z.of_nat n))) 2) (seq 0 256)
  = true.
Proof.
  vm_compute. reflexivity.
Qed.

(** X14: a number in 0..255, so every valid device address, prints as
    exactly two characters. *)
Theorem format_02X_two_chars (z : Z) :
  0 <= z <= 255 -> String.length (format_02X z) = 2%nat.
Proof.
  intros Hz.
  pose proof format_02X_two_chars_upto_255 as H.
  rewrite forallb_forall in H.
  specialize (H (Z.to_nat z)). rewrite Z2Nat.id in H by lia.
  apply Nat.eqb_eq, H, in_seq. lia.
Qed.

Lemma format_02X_two_chars_witness :
  String.length (format_02X 10) = 2%nat.
Proof.
  apply (format_02X_two_chars 10). lia.
Defined.

(** ** Writing, then reading *)

Lemma take_padded_all (buf : bytes) :
  Double.take_padded (List.length buf) buf = buf.
Proof.
  induction buf as [|b rest IH]; simpl; [reflexivity|now rewrite IH].
Qed.

Lemma double_is_register_file : register_file Double.i2c.
Proof.
  intros addr memaddr buf s s'. simpl.
  unfold Double.writeto_mem, Double.readfrom_mem, Double.guarded.
  destruct (Double.fault s) as [errno|] eqn:Hfault; [discriminate|].
  destruct (Double.attached s addr) eqn:Hatt; [|discriminate].
  intros [= <-]. simpl.
  unfold Double.attached in *. simpl. rewrite Hatt, !Z.eqb_refl. simpl.
  now rewrite Nat2Z.id, take_padded_all.
Qed.

(** X15: on a driver that behaves as a register file, a byte written
    with [write_byte] is the value [read_byte] then returns from the
    same device and register. *)
Theorem write_byte_then_read_byte
    (S : Type) (i2c : I2C.driver S) (device_addr reg_addr value : Z) (w : world S) :
  register_file i2c ->
  0 <= device_addr <= 127 -> 0 <= value <= 255 ->
  fst (write_byte i2c device_addr reg_addr value w) = inr tt ->
  fst (read_byte i2c device_addr reg_addr
         (snd (write_byte i2c device_addr reg_addr value w)))
  = inr value.
Proof.
  intros Hfile Ha Hv.
  destruct (write_byte_run S i2c device_addr reg_addr value Ha Hv) as [b [Hb Hrun]].
  destruct (I2C.writeto_mem i2c device_addr reg_addr [b] (bus w)) as [r s'] eqn:E.
  rewrite (Hrun w r s' E). cbn [fst snd]. intros ->.
  pose proof (Hfile device_addr reg_addr [b] (bus w) s' E) as Hread.
  cbn [List.length Z.of_nat Pos.of_succ_nat] in Hread.
  match goal with
  | |- fst (read_byte _ _ _ ?w1) = _ =>
      destruct (read_byte_run S i2c device_addr reg_addr w1 (inr [b]) s' Ha Hread)
        as [r' [Hrun' Hr']]; rewrite Hrun'; specialize (Hr' w1)
  end.
  unfold getitem in Hr'. cbv [nth_error ret] in Hr'.
  injection Hr' as <-. cbn [fst]. now rewrite Hb.
Qed.

Lemma write_byte_then_read_byte_witness :
  fst (read_byte Double.i2c 64 1
         (snd (write_byte Double.i2c 64 1 255 (Double.fresh Double.two_devices))))
  = inr 255.
Proof.
  apply (write_byte_then_read_byte _ Double.i2c 64 1 255
           (Double.fresh Double.two_devices) double_is_register_file);
    [lia|lia|reflexivity].
Defined.

(** X16: on a driver that behaves as a register file, a word written
    with [write_word] is the value [read_word] then returns from the
    same device and register under the same byte-order tag. *)
Theorem write_word_then_read_word
    (S : Type) (i2c : I2C.driver S) (device_addr reg_addr value : Z)
    (byteorder : string) (w : world S) :
  register_file i2c ->
  0 <= device_addr <= 127 -> 0 <= value <= 65535 ->
  fst (write_word i2c device_addr reg_addr value byteorder w) = inr tt ->
  fst (read_word i2c device_addr reg_addr byteorder
         (snd (write_word i2c device_addr reg_addr value byteorder w)))
  = inr value.
Proof.
  intros Hfile Ha Hv.
  destruct (write_word_run S i2c device_addr reg_addr value byteorder Ha Hv)
    as [hi [lo [Hhi [Hlo Hrun]]]].
  destruct (I2C.writeto_mem i2c device_addr reg_addr
              (if String.eqb byteorder "big" then [hi; lo] else [lo; hi]) (bus w))
    as [r s'] eqn:E.
  rewrite (Hrun w r s' E). cbn [fst snd]. intros ->.
  pose proof (Hfile device_addr reg_addr _ (bus w) s' E) as Hread.
  assert (Hread2 : I2C.readfrom_mem i2c device_addr reg_addr 2 s'
                   = (inr (if String.eqb byteorder "big" then [hi; lo] else [lo; hi]),
                      s')).
  { revert Hread. destruct (String.eqb byteorder "big"); exact (fun H => H). }
  clear Hread.
  match goal with
  | |- fst (read_word _ _ _ _ ?w1) = _ =>
      destruct (read_word_run S i2c device_addr reg_addr byteorder w1 _ s' Ha Hread2)
        as [r' [Hrun' Hr']]; rewrite Hrun'; specialize (Hr' w1)
  end.
  cbn [fst].
  assert (Hr : r' = inr value); [|exact Hr].
  unfold unpack_word in Hr'.
  destruct (String.eqb byteorder "big");
    cbv [bind getitem ret nth_error] in Hr';
    rewrite Hhi, Hlo, (word_recombine value Hv) in Hr';
    injection Hr' as <-; reflexivity.
Qed.

Lemma write_word_then_read_word_witness :
  fst (read_word Double.i2c 64 2 "little"
         (snd (write_word Double.i2c 64 2 4660 "little"
                 (Double.fresh Double.two_devices))))
  = inr 4660.
Proof.
  apply (write_word_then_read_word _ Double.i2c 64 2 4660 "little"
           (Double.fresh Double.two_devices) double_is_register_file);
    [lia|lia|reflexivity].
Defined.

(** X17: on a driver that behaves as a register file, the bytes
    [read_bytes] returns after a [write_bytes] of a list of integers in
    0..255, for as many bytes as the list has items, are those
    integers. *)
Theorem write_bytes_then_read_bytes
    (S : Type) (i2c : I2C.driver S) (device_addr reg_addr : Z) (zs : list Z)
    (w : world S) :
  register_file i2c ->
  0 <= device_addr <= 127 ->
  Forall (fun z => 0 <= z <= 255) zs ->
  fst (write_bytes i2c device_addr reg_addr (PyList (map PyInt zs)) w) = inr tt ->
  exists buf,
    fst (read_bytes i2c device_addr reg_addr (Z.of_nat (List.length zs))
           (snd (write_bytes i2c device_addr reg_addr (PyList (map PyInt zs)) w)))
    = inr buf
    /\ map Z_of_byte buf = zs.
Proof.
  intros Hfile Ha Hzs.
  destruct (bytes_of_items_ints zs Hzs) as [buf [Hbuf Hval]].
  assert (Hdata : coerce_data (PyList (map PyInt zs)) w = (inr buf, w))
    by (simpl; unfold lift; now rewrite Hbuf).
  destruct (I2C.writeto_mem i2c device_addr reg_addr buf (bus w)) as [r s'] eqn:E.
  rewrite (write_bytes_run S i2c device_addr reg_addr _ buf w r s' Ha Hdata E).
  cbn [fst snd]. intros ->.
  pose proof (Hfile device_addr reg_addr buf (bus w) s' E) as Hread.
  assert (Hlen : List.length buf = List.length zs)
    by (rewrite <- Hval; now rewrite length_map).
  rewrite Hlen in Hread.
  exists buf. split; [|assumption].
  match goal with
  | |- fst (read_bytes _ _ _ _ ?w1) = _ =>
      now rewrite (read_bytes_run S i2c device_addr reg_addr _ w1 _ s' Ha Hread)
  end.
Qed.

Lemma write_bytes_then_read_bytes_witness :
  exists buf,
    fst (read_bytes Double.i2c 64 3 (Z.of_nat (List.length [1; 2; 3]))
           (snd (write_bytes Double.i2c 64 3 (PyList (map PyInt [1; 2; 3]))
                   (Double.fresh Double.two_devices))))
    = inr buf
    /\ map Z_of_byte buf = [1; 2; 3].
Proof.
  apply (write_bytes_then_read_bytes _ Double.i2c 64 3 [1; 2; 3]
           (Double.fresh Double.two_devices) double_is_register_file);
    [lia|repeat constructor; lia|reflexivity].
Defined.

(** X18: the byte-order tags must agree: a word packed under ['big']
    and unpacked under ['little'], or the other way round, comes back
    with its two bytes swapped. *)
Theorem mixed_byteorder_swaps_bytes (S : Type) (value : Z) :
  0 <= value <= 65535 ->
  (exists buf,
      bytes_of_items (pack_word "big" value) = inr buf
      /\ forall w : world S,
           unpack_word "little" buf w = (inr (256 * (value mod 256) + value / 256), w))
  /\ (exists buf,
         bytes_of_items (pack_word "little" value) = inr buf
         /\ forall w : world S,
              unpack_word "big" buf w = (inr (256 * (value mod 256) + value / 256), w)).
Proof.
  intros Hv.
  assert (Hlow : Z.land value 255 = value mod 256)
    by (change 255 with (Z.ones 8); rewrite Z.land_ones by lia; reflexivity).
  assert (Hhigh : Z.land (Z.shiftr value 8) 255 = value / 256).
  { change 255 with (Z.ones 8). rewrite Z.land_ones, Z.shiftr_div_pow2 by lia.
    change (2 ^ 8) with 256. apply Z.mod_small.
    split; [apply Z.div_pos; lia|apply Z.div_lt_upper_bound; lia]. }
  assert (Rlow : 0 <= value mod 256 <= 255)
    by (pose proof (Z.mod_pos_bound value 256); lia).
  assert (Rhigh : 0 <= value / 256 <= 255).
  { split; [apply Z.div_pos; lia|].
    assert (value / 256 < 256) by (apply Z.div_lt_upper_bound; lia). lia. }
  split.
  - destruct (pack_word_bytes "big" value) as [hi [lo [Hhi [Hlo Hbuf]]]].
    exists [hi; lo]. split; [exact Hbuf|]. intros w.
    unfold unpack_word. cbv [String.eqb Ascii.eqb Bool.eqb bind getitem ret nth_error].
    rewrite Hhi, Hlo, Hlow, Hhigh.
    rewrite shift_or_is_sum by lia. reflexivity.
  - destruct (pack_word_bytes "little" value) as [hi [lo [Hhi [Hlo Hbuf]]]].
    exists [lo; hi]. split; [exact Hbuf|]. intros w.
    unfold unpack_word. cbv [String.eqb Ascii.eqb Bool.eqb bind getitem ret nth_error].
    rewrite Hhi, Hlo, Hlow, Hhigh.
    rewrite shift_or_is_sum by lia. reflexivity.
Qed.

Lemma mixed_byteorder_swaps_bytes_witness :
  exists buf,
    bytes_of_items (pack_word "big" 4660) = inr buf
    /\ forall w : world unit,
         unpack_word "little" buf w = (inr (256 * (4660 mod 256) + 4660 / 256), w).
Proof.
  apply (proj1 (mixed_byteorder_swaps_bytes unit 4660 ltac:(lia))).
Defined.

(** ** The constructor *)

(** X19: [__init__] checks both pins before it touches the platform:
    if either is not a [machine.Pin] it raises the pin [ValueError]
    and the platform is left as it was, whatever the frequency;
    otherwise it is the platform's constructor that runs, on the same
    pins, with the given frequency or 100000 when none is given. *)
Theorem constructor_checks_pins
    (H S : Type) (machine_I2C : pin_arg -> pin_arg -> Z -> H -> (exn + S) * H)
    (scl sda : pin_arg) (freq : option Z) (h : H) :
  (is_Pin scl = false \/ is_Pin sda = false ->
   __init__ machine_I2C scl sda freq h = (inl (ValueError pin_msg), h))
  /\ (is_Pin scl = true -> is_Pin sda = true ->
      __init__ machine_I2C scl sda freq h
      = machine_I2C scl sda (match freq with Some f => f | None => 100000 end) h).
Proof.
  unfold __init__. split.
  - intros [-> | ->]; [reflexivity|]. now rewrite orb_true_r.
  - intros -> ->. reflexivity.
Qed.

Lemma constructor_checks_pins_witness :
  __init__ (fun _ _ _ (h : unit) => (@inr exn unit tt, h))
    (Pin 22) (NotPin (PyInt 21)) None tt
  = (inl (ValueError pin_msg), tt)
  /\ __init__ (fun _ _ freq (h : unit) => (@inr exn Z freq, h))
       (Pin 22) (Pin 21) None tt
     = (inr 100000, tt).
Proof.
  split.
  - apply (proj1 (constructor_checks_pins unit unit
                    (fun _ _ _ h => (inr tt, h)) (Pin 22) (NotPin (PyInt 21)) None tt)).
    right. reflexivity.
  - apply (proj2 (constructor_checks_pins unit Z
                    (fun _ _ freq h => (inr freq, h)) (Pin 22) (Pin 21) None tt));
      reflexivity.
Defined.

(** ** The script *)

Section Script.

Variable S : Type.
Variable i2c : I2C.driver S.
Variable str_OSError : Z -> string.
Implicit Type w : world S.

Lemma select_device_run w (r : exn + list Z) (s' : S) :
  I2C.scan i2c (bus w) = (r, s') ->
  select_device i2c w
  = match r with
    | inl e =>
        (inl e,
         World s' (calls w ++ [(Scan, Some e)])
           (stdout w ++ ["Результаты сканирования I2С:"]))
    | inr [] =>
        (inr None,
         World s' (calls w ++ [(Scan, None)])
           (stdout w ++ ["Результаты сканирования I2С:"; "Устройства не найдены.";
                         "Ошибка: Подключенные устройства не найдены!"]))
    | inr (device_addr :: rest) =>
        (inr (Some device_addr),
         World s' (calls w ++ [(Scan, None)])
           (stdout w
            ++ "Результаты сканирования I2С:" :: "Обнаружены устройства I2C:"
               :: map (fun addr => (" - Адрес: 0x" ++ format_02X addr)%string)
                    (device_addr :: rest)
            ++ [("Выбрано устройство с адресом 0x" ++ format_02X device_addr)%string]))
    end.
Proof.
  intros Hscan. unfold select_device. unfold bind at 1. unfold print at 1.
  cbv beta iota. unfold bind at 1.
  set (w1 := World (bus w) (calls w) (stdout w ++ ["Результаты сканирования I2С:"])).
  assert (Hscan1 : I2C.scan i2c (bus w1) = (r, s')) by exact Hscan.
  destruct r as [e|devices].
  - unfold scan, i2c_scan, bind, invoke. rewrite Hscan1. reflexivity.
  - rewrite (scan_run S i2c true w1 devices s' Hscan1).
    destruct devices as [|device_addr rest]; cbn -[format_02X String.append];
      rewrite <- ?app_assoc; reflexivity.
Qed.

(** X20: when the scan finds no device, the script says so and stops
    at [exit()]: the scan is the only driver call it has made. *)
Theorem example_without_devices w (s' : S) :
  I2C.scan i2c (bus w) = (inr [], s') ->
  example i2c str_OSError w
  = (Exited,
     World s' (calls w ++ [(Scan, None)])
       (stdout w ++ ["Результаты сканирования I2С:"; "Устройства не найдены.";
                     "Ошибка: Подключенные устройства не найдены!"])).
Proof.
  intros Hscan. unfold example.
  now rewrite (select_device_run w (inr []) s' Hscan).
Qed.

Lemma exercise_rejects_addr (device_addr : Z) w :
  device_addr < 0 \/ 127 < device_addr ->
  exercise i2c str_OSError device_addr w = (inl InvalidAddress, w).
Proof.
  intros Ha. unfold exercise. unfold bind at 1. unfold try_except_OSError at 1.
  unfold bind at 1. now rewrite (write_byte_rejects_addr S i2c device_addr 1 255 w Ha).
Qed.

(** X21: the script does not guard against a bad address: when the
    first address the scan reports lies outside 0..127, the first
    method call raises the address [ValueError], no [except] clause
    catches it, and the script ends there with the scan as its only
    driver call. *)
Theorem example_with_invalid_first_address w (device_addr : Z) (rest : list Z) (s' : S) :
  I2C.scan i2c (bus w) = (inr (device_addr :: rest), s') ->
  device_addr < 0 \/ 127 < device_addr ->
  fst (example i2c str_OSError w) = Uncaught InvalidAddress
  /\ calls (snd (example i2c str_OSError w)) = calls w ++ [(Scan, None)].
Proof.
  intros Hscan Ha.
  assert (Hrun : exists out,
             example i2c str_OSError w
             = (Uncaught InvalidAddress, World s' (calls w ++ [(Scan, None)]) out)).
  { unfold example.
    rewrite (select_device_run w (inr (device_addr :: rest)) s' Hscan).
    cbv beta iota. rewrite (exercise_rejects_addr device_addr _ Ha).
    eexists. reflexivity. }
  destruct Hrun as [out ->]. split; reflexivity.
Qed.

Lemma caught_contains_OSError (body : M S unit) (line : Z -> string) :
  contains_OSError (try_except_OSError body (fun errno => print (line errno))).
Proof.
  intros w errno. unfold try_except_OSError.
  destruct (body w) as [[[e|msg|msg|msg]|a] w1]; cbn; discriminate.
Qed.

Lemma bind_contains_OSError {A B : Type} (m : M S A) (k : A -> M S B) :
  contains_OSError m -> (forall a, contains_OSError (k a)) ->
  contains_OSError (bind m k).
Proof.
  intros Hm Hk w errno. unfold bind. specialize (Hm w).
  destruct (m w) as [[e|a] w1]; cbn in *.
  - intros [= ->]. now elim (Hm errno).
  - apply Hk.
Qed.

Lemma exercise_contains_OSError (device_addr : Z) :
  contains_OSError (exercise i2c str_OSError device_addr).
Proof.
  unfold exercise.
  repeat (apply bind_contains_OSError; [|intros _]);
    apply caught_contains_OSError.
Qed.

(** X22: every [OSError] raised by a method is caught by the script:
    the only [OSError] that can end it is one raised by the scan, and
    then the scan is the only driver call made. *)
Theorem only_the_scan_error_escapes w (errno : Z) :
  fst (example i2c str_OSError w) = Uncaught (OSError errno) ->
  exists s',
    I2C.scan i2c (bus w) = (inl (OSError errno), s')
    /\ calls (snd (example i2c str_OSError w))
       = calls w ++ [(Scan, Some (OSError errno))].
Proof.
  unfold example.
  destruct (I2C.scan i2c (bus w)) as [r s'] eqn:Hscan.
  rewrite (select_device_run w r s' Hscan).
  destruct r as [e|[|device_addr rest]].
  - cbn. intros [= ->]. now exists s'.
  - discriminate.
  - match goal with
    | |- context [exercise i2c str_OSError device_addr ?w1] =>
        pose proof (exercise_contains_OSError device_addr w1 errno) as Hex;
        destruct (exercise i2c str_OSError device_addr w1) as [[e|u] w2]
    end.
    + cbn in *. intros [= ->]. now elim Hex.
    + discriminate.
Qed.

End Script.

Lemma example_without_devices_witness :
  example Mute.i2c (fun _ => "EIO") Mute.fresh
  = (Exited,
     World tt (calls Mute.fresh ++ [(Scan, None)])
       (stdout Mute.fresh
        ++ ["Результаты сканирования I2С:"; "Устройства не найдены.";
            "Ошибка: Подключенные устройства не найдены!"])).
Proof.
  apply (example_without_devices _ Mute.i2c (fun _ => "EIO") Mute.fresh tt).
  reflexivity.
Defined.

Lemma example_with_invalid_first_address_witness :
  fst (example Double.i2c (fun _ => "EIO")
         (Double.fresh {| Double.devices := [200]; Double.regs := [];
                          Double.direct := []; Double.fault := None |}))
  = Uncaught InvalidAddress
  /\ calls (snd (example Double.i2c (fun _ => "EIO")
                   (Double.fresh {| Double.devices := [200]; Double.regs := [];
                                    Double.direct := []; Double.fault := None |})))
     = calls (Double.fresh {| Double.devices := [200]; Double.regs := [];
                              Double.direct := []; Double.fault := None |})
       ++ [(Scan, None)].
Proof.
  apply (example_with_invalid_first_address _ Double.i2c (fun _ => "EIO")
           (Double.fresh {| Double.devices := [200]; Double.regs := [];
                            Double.direct := []; Double.fault := None |})
           200 [] {| Double.devices := [200]; Double.regs := [];
                     Double.direct := []; Double.fault := None |}).
  - reflexivity.
  - lia.
Defined.

Lemma only_the_scan_error_escapes_witness :
  exists s',
    I2C.scan Double.i2c (bus (Double.fresh Double.faulty)) = (inl (OSError 5), s')
    /\ calls (snd (example Double.i2c (fun _ => "EIO") (Double.fresh Double.faulty)))
       = calls (Double.fresh Double.faulty) ++ [(Scan, Some (OSError 5))].
Proof.
  apply (only_the_scan_error_escapes _ Double.i2c (fun _ => "EIO")
           (Double.fresh Double.faulty) 5).
  reflexivity.
Defined.

Section ScriptRun.

Variable S : Type.
Variable i2c : I2C.driver S.
Variable str_OSError : Z -> string.
Hypothesis Hwb : well_behaved i2c.
Implicit Type w : world S.

Lemma combine_snoc (cs1 cs2 : list call) (os1 os2 : list outcome) :
  List.length os1 = List.length cs1 ->
  combine (cs1 ++ cs2) (os1 ++ os2) = combine cs1 os1 ++ combine cs2 os2.
Proof.
  revert os1. induction cs1 as [|c cs1 IH]; intros [|o os1]; simpl; try discriminate.
  - reflexivity.
  - intros [= Hlen]. now rewrite IH.
Qed.

Lemma runs_bind (cs1 cs2 : list call) (m1 m2 : M S unit) :
  runs cs1 m1 -> runs cs2 m2 -> runs (cs1 ++ cs2) (bind m1 (fun _ => m2)).
Proof.
  intros H1 H2 w. unfold bind.
  destruct (H1 w) as [os1 [s1 [out1 [Hl1 ->]]]].
  destruct (H2 (World s1 (calls w ++ combine cs1 os1) (stdout w ++ out1)))
    as [os2 [s2 [out2 [Hl2 ->]]]].
  exists (os1 ++ os2), s2, (out1 ++ out2). split.
  - rewrite !length_app. congruence.
  - cbn [calls stdout]. rewrite combine_snoc by assumption.
    now rewrite <- !List.app_assoc.
Qed.

(** A guarded block of the script: the method, the line on success,
    the line on [OSError]. *)
Lemma block_runs {A : Type} (c : call) (m : M S A) (done : A -> string)
    (failed : Z -> string) :
  transfers c m ->
  runs [c]
    (try_except_OSError (bind m (fun a => print (done a)))
       (fun errno => print (failed errno))).
Proof.
  intros Hm w. unfold try_except_OSError, bind.
  destruct (Hm w) as [r [o [s' [out [-> Hr]]]]].
  destruct r as [e|a].
  - destruct Hr as [errno ->].
    exists [o], s', (out ++ [failed errno]). split; [reflexivity|].
    unfold print. cbn [bus calls stdout combine]. now rewrite <- List.app_assoc.
  - exists [o], s', (out ++ [done a]). split; [reflexivity|].
    unfold print. cbn [bus calls stdout combine]. now rewrite <- List.app_assoc.
Qed.

Lemma write_transfers (c : call) (m : M S unit) (line : string) :
  (forall w, exists r s',
      returns_or_OSError r
      /\ m w = (r, World s' (calls w ++ [(c, raised r)])
                     (stdout w ++ diagnosed line (raised r)))) ->
  transfers c m.
Proof.
  intros H w. destruct (H w) as [r [s' [Hr ->]]].
  now exists r, (raised r), s', (diagnosed line (raised r)).
Qed.

Lemma write_byte_transfers (device_addr : Z) :
  0 <= device_addr <= 127 ->
  transfers (WritetoMem device_addr 1 [xff]) (write_byte i2c device_addr 1 255).
Proof.
  intros Ha.
  destruct (write_byte_run S i2c device_addr 1 255 Ha ltac:(lia)) as [b [Hb Hrun]].
  assert (Eb : b = xff) by (apply Z_of_byte_inj; exact Hb). subst b.
  eapply write_transfers. intros w.
  destruct (I2C.writeto_mem i2c device_addr 1 [xff] (bus w)) as [r s'] eqn:E.
  exists r, s'. split; [|exact (Hrun w r s' E)].
  pose proof (wb_writeto_mem i2c Hwb device_addr 1 [xff] (bus w)) as H.
  now rewrite E in H.
Qed.

Lemma write_word_transfers (device_addr : Z) :
  0 <= device_addr <= 127 ->
  transfers (WritetoMem device_addr 2 [x12; x34])
    (write_word i2c device_addr 2 4660 "big").
Proof.
  intros Ha.
  destruct (write_word_run S i2c device_addr 2 4660 "big" Ha ltac:(lia))
    as [hi [lo [Hhi [Hlo Hrun]]]].
  assert (Ehi : hi = x12) by (apply Z_of_byte_inj; exact Hhi).
  assert (Elo : lo = x34) by (apply Z_of_byte_inj; exact Hlo).
  subst hi lo. cbv [String.eqb Ascii.eqb Bool.eqb] in Hrun.
  eapply write_transfers. intros w.
  destruct (I2C.writeto_mem i2c device_addr 2 [x12; x34] (bus w)) as [r s'] eqn:E.
  exists r, s'. split; [|exact (Hrun w r s' E)].
  pose proof (wb_writeto_mem i2c Hwb device_addr 2 [x12; x34] (bus w)) as H.
  now rewrite E in H.
Qed.

Lemma write_bytes_transfers (device_addr : Z) :
  0 <= device_addr <= 127 ->
  transfers (WritetoMem device_addr 3 [x01; x02; x03])
    (write_bytes i2c device_addr 3 (PyList [PyInt 1; PyInt 2; PyInt 3])).
Proof.
  intros Ha. eapply write_transfers. intros w.
  destruct (I2C.writeto_mem i2c device_addr 3 [x01; x02; x03] (bus w))
    as [r s'] eqn:E.
  exists r, s'. split.
  - pose proof (wb_writeto_mem i2c Hwb device_addr 3 [x01; x02; x03] (bus w)) as H.
    now rewrite E in H.
  - exact (write_bytes_run S i2c device_addr 3 (PyList [PyInt 1; PyInt 2; PyInt 3])
             [x01; x02; x03] w r s' Ha eq_refl E).
Qed.

Lemma write_direct_transfers (device_addr : Z) :
  0 <= device_addr <= 127 ->
  transfers (Writeto device_addr [xaa; xbb])
    (write_direct i2c device_addr (PyList [PyInt 170; PyInt 187])).
Proof.
  intros Ha. eapply write_transfers. intros w.
  destruct (I2C.writeto i2c device_addr [xaa; xbb] (bus w)) as [r s'] eqn:E.
  exists r, s'. split.
  - pose proof (wb_writeto i2c Hwb device_addr [xaa; xbb] (bus w)) as H.
    now rewrite E in H.
  - exact (write_direct_run S i2c device_addr (PyList [PyInt 170; PyInt 187])
             [xaa; xbb] w r s' Ha eq_refl E).
Qed.

Lemma read_byte_transfers (device_addr : Z) :
  0 <= device_addr <= 127 ->
  transfers (ReadfromMem device_addr 1 1) (read_byte i2c device_addr 1).
Proof.
  intros Ha w.
  destruct (I2C.readfrom_mem i2c device_addr 1 1 (bus w)) as [r s'] eqn:E.
  destruct (read_byte_run S i2c device_addr 1 w r s' Ha E) as [r' [Hrun Hr']].
  exists r', (raised r), s',
    (diagnosed (mem_diagnostic "прочитать байт из устройства" device_addr 1) (raised r)).
  split; [exact Hrun|].
  pose proof (wb_readfrom_mem i2c Hwb device_addr 1 1 (bus w)) as H.
  rewrite E in H. cbn [fst] in H. destruct r as [e|data].
  - subst r'. exact H.
  - destruct data as [|b [|]]; try discriminate.
    specialize (Hr' w). cbv [getitem nth_error ret] in Hr'.
    injection Hr' as <-. exact I.
Qed.

Lemma read_word_transfers (device_addr : Z) :
  0 <= device_addr <= 127 ->
  transfers (ReadfromMem device_addr 2 2) (read_word i2c device_addr 2 "big").
Proof.
  intros Ha w.
  destruct (I2C.readfrom_mem i2c device_addr 2 2 (bus w)) as [r s'] eqn:E.
  destruct (read_word_run S i2c device_addr 2 "big" w r s' Ha E) as [r' [Hrun Hr']].
  exists r', (raised r), s',
    (diagnosed (mem_diagnostic "прочитать слово из устройства" device_addr 2) (raised r)).
  split; [exact Hrun|].
  pose proof (wb_readfrom_mem i2c Hwb device_addr 2 2 (bus w)) as H.
  rewrite E in H. cbn [fst] in H. destruct r as [e|data].
  - subst r'. exact H.
  - destruct data as [|d0 [|d1 [|]]]; try discriminate.
    specialize (Hr' w).
    cbv [unpack_word String.eqb Ascii.eqb Bool.eqb bind getitem nth_error ret] in Hr'.
    injection Hr' as <-. exact I.
Qed.

Lemma read_bytes_transfers (device_addr : Z) :
  0 <= device_addr <= 127 ->
  transfers (ReadfromMem device_addr 3 3) (read_bytes i2c device_addr 3 3).
Proof.
  intros Ha w.
  destruct (I2C.readfrom_mem i2c device_addr 3 3 (bus w)) as [r s'] eqn:E.
  exists r, (raised r), s',
    (diagnosed (mem_diagnostic "прочитать байты из устройства" device_addr 3) (raised r)).
  split; [exact (read_bytes_run S i2c device_addr 3 3 w r s' Ha E)|].
  pose proof (wb_readfrom_mem i2c Hwb device_addr 3 3 (bus w)) as H.
  rewrite E in H. cbn [fst] in H. destruct r; [exact H|exact I].
Qed.

Lemma read_direct_transfers (device_addr : Z) :
  0 <= device_addr <= 127 ->
  transfers (Readfrom device_addr 2) (read_direct i2c device_addr 2).
Proof.
  intros Ha w.
  destruct (I2C.readfrom i2c device_addr 2 (bus w)) as [r s'] eqn:E.
  exists r, (raised r), s',
    (diagnosed (direct_diagnostic "прочитать данные с устройства" device_addr) (raised r)).
  split; [exact (read_direct_run S i2c device_addr 2 w r s' Ha E)|].
  pose proof (wb_readfrom i2c Hwb device_addr 2 (bus w)) as H.
  rewrite E in H. cbn [fst] in H. destruct r; [exact H|exact I].
Qed.

Lemma exercise_runs (device_addr : Z) :
  0 <= device_addr <= 127 ->
  runs [WritetoMem device_addr 1 [xff]; ReadfromMem device_addr 1 1;
        WritetoMem device_addr 2 [x12; x34]; ReadfromMem device_addr 2 2;
        WritetoMem device_addr 3 [x01; x02; x03]; ReadfromMem device_addr 3 3;
        Writeto device_addr [xaa; xbb]; Readfrom device_addr 2]
    (exercise i2c str_OSError device_addr).
Proof.
  intros Ha. unfold exercise.
  apply (runs_bind [_] _); [apply block_runs; now apply write_byte_transfers|].
  apply (runs_bind [_] _); [apply block_runs; now apply read_byte_transfers|].
  apply (runs_bind [_] _); [apply block_runs; now apply write_word_transfers|].
  apply (runs_bind [_] _); [apply block_runs; now apply read_word_transfers|].
  apply (runs_bind [_] _); [apply block_runs; now apply write_bytes_transfers|].
  apply (runs_bind [_] _); [apply block_runs; now apply read_bytes_transfers|].
  apply (runs_bind [_] _); [apply block_runs; now apply write_direct_transfers|].
  apply block_runs; now apply read_direct_transfers.
Qed.

(** X23: on a well-behaved driver whose scan reports a first address
    in 0..127, the script runs to its last line, whichever transfers
    fail, and makes exactly nine driver calls: the scan, then on that
    first device a byte written to and read from register 1, the word
    0x1234 written big-endian to and read from register 2, three bytes
    written to and read from register 3, and two bytes written and
    read directly. *)
Theorem example_on_a_well_behaved_bus w (device_addr : Z) (rest : list Z) (s' : S) :
  I2C.scan i2c (bus w) = (inr (device_addr :: rest), s') ->
  0 <= device_addr <= 127 ->
  fst (example i2c str_OSError w) = Completed
  /\ map fst (calls (snd (example i2c str_OSError w)))
     = map fst (calls w)
       ++ [Scan;
           WritetoMem device_addr 1 [xff]; ReadfromMem device_addr 1 1;
           WritetoMem device_addr 2 [x12; x34]; ReadfromMem device_addr 2 2;
           WritetoMem device_addr 3 [x01; x02; x03]; ReadfromMem device_addr 3 3;
           Writeto device_addr [xaa; xbb]; Readfrom device_addr 2].
Proof.
  intros Hscan Ha. unfold example.
  rewrite (select_device_run S i2c w (inr (device_addr :: rest)) s' Hscan).
  cbv beta iota.
  match goal with
  | |- context [exercise i2c str_OSError device_addr ?w1] =>
      destruct (exercise_runs device_addr Ha w1) as [os [s2 [out [Hlen ->]]]]
  end.
  split; [reflexivity|].
  cbn [snd calls]. rewrite !map_app. cbn [map fst]. rewrite <- List.app_assoc.
  do 9 (destruct os as [|? os]; try discriminate).
  reflexivity.
Qed.

End ScriptRun.

Lemma take_padded_length (n : nat) (buf : bytes) :
  List.length (Double.take_padded n buf) = n.
Proof.
  revert buf. induction n as [|n IH]; intros buf; simpl; [reflexivity|].
  destruct buf; simpl; now rewrite IH.
Qed.

Lemma double_well_behaved : well_behaved Double.i2c.
Proof.
  split; simpl; intros;
    unfold Double.writeto_mem, Double.writeto, Double.readfrom_mem,
      Double.readfrom, Double.guarded;
    destruct (Double.fault s) as [errno|]; cbn [fst returns_or_OSError];
    try (now eexists);
    destruct (Double.attached s addr); cbn [fst returns_or_OSError];
    try (now eexists); try exact I; apply take_padded_length.
Qed.

Lemma example_on_a_well_behaved_bus_witness :
  fst (example Double.i2c (fun _ => "EIO") (Double.fresh Double.two_devices))
  = Completed
  /\ map fst (calls (snd (example Double.i2c (fun _ => "EIO")
                           (Double.fresh Double.two_devices))))
     = map fst (calls (Double.fresh Double.two_devices))
       ++ [Scan;
           WritetoMem 60 1 [xff]; ReadfromMem 60 1 1;
           WritetoMem 60 2 [x12; x34]; ReadfromMem 60 2 2;
           WritetoMem 60 3 [x01; x02; x03]; ReadfromMem 60 3 3;
           Writeto 60 [xaa; xbb]; Readfrom 60 2].
Proof.
  apply (example_on_a_well_behaved_bus _ Double.i2c (fun _ => "EIO")
           double_well_behaved (Double.fresh Double.two_devices)
           60 [64] Double.two_devices).
  - reflexivity.
  - lia.
Defined.
